(** * Library catalog (Biblioteca): a shallow embedding and its properties

    The development follows the TypeScript sources file by file:
    [JsMap] models the ECMAScript [Map] the service keeps its collections in,
    [Libro], [Usuario] and [Prestamo] are the three entity classes,
    [IStorage] is the storage port and [Biblioteca] the catalog service.

    Modelling conventions.
    - A JavaScript [number] used as an identifier, a counter or a year is a
      [Z]. The only arithmetic is [n++] on a counter, modelled as [n + 1]:
      that is what the code computes as long as the counter is an integer
      from -2^53 up to 2^53 - 1 ([contador_exacto]), which holds of every
      counter a run from the empty catalog can reach in practice; a
      statement about an arbitrary state that depends on the new value of a
      counter carries that bound as a hypothesis.
    - A mutable object held in a [Map] is a record stored in the map; a
      method that mutates [this] returns its result together with the new
      record, and the service writes the record back under the same key.
    - [new Date().toISOString()] is an input of the operation that reads the
      clock (the argument [ahora]).
    - [console] output is not modelled. *)

From Stdlib Require Import ZArith List String Ascii Bool Lia.
Import ListNotations.
Open Scope string_scope.
Open Scope Z_scope.

(** ** ECMAScript values *)

(** Truthiness of a string: only the empty string is falsy. *)
Definition truthy (s : string) : bool :=
  match s with
  | EmptyString => false
  | String _ _ => true
  end.

(** Truthiness of a property that is either [undefined] or a string. *)
Definition truthy_opt (o : option string) : bool :=
  match o with
  | None => false
  | Some s => truthy s
  end.

(** ** [Map<number, V>]: the entries in insertion order; [set] never adds a
    key that is already there *)

Module JsMap.

Section WithValue.
Context {V : Type}.

Definition t : Type := list (Z * V).

Definition empty : t := [].

(** [Map.prototype.get]: [None] stands for [undefined]. *)
Fixpoint get (k : Z) (m : t) : option V :=
  match m with
  | [] => None
  | (k', v) :: r => if k =? k' then Some v else get k r
  end.

(** [Map.prototype.set]: an existing key keeps its position and takes the
    new value, a new key goes to the end. *)
Fixpoint set (k : Z) (v : V) (m : t) : t :=
  match m with
  | [] => [(k, v)]
  | (k', v') :: r => if k =? k' then (k, v) :: r else (k', v') :: set k v r
  end.

(** [Array.from(m.values())]. *)
Definition values (m : t) : list V := map snd m.

Definition keys (m : t) : list Z := map fst m.

(** [Map.prototype.has]. *)
Definition has (k : Z) (m : t) : bool := existsb (Z.eqb k) (keys m).

(** How many values satisfy [f]: [Array.from(m.values()).filter(f).length]. *)
Definition count (f : V -> bool) (m : t) : nat :=
  List.length (filter f (map snd m)).

(** [Map.prototype.size]. *)
Definition size (m : t) : nat := List.length m.

End WithValue.

Arguments t V : clear implicits.

End JsMap.

(** ** Libro.ts *)

Module Libro.

Record t : Type := mk {
  id : Z;
  titulo : string;
  autor : string;
  año : Z;
  disponible : bool
}.

(** The object [toJSON] returns, and the objects [fromJSON] reads.
    [jdisponible = None] is a property that is absent or not a boolean. *)
Record json : Type := mkJson {
  jid : Z;
  jtitulo : string;
  jautor : string;
  jaño : Z;
  jdisponible : option bool
}.

(** [new Libro(id, titulo, autor, año)]: every new book starts available. *)
Definition new (id : Z) (titulo autor : string) (año : Z) : t :=
  mk id titulo autor año true.

Definition isDisponible (l : t) : bool := disponible l.

Definition prestar (l : t) : bool * t :=
  if negb (disponible l) then (false, l)
  else (true, mk (id l) (titulo l) (autor l) (año l) false).

Definition devolver (l : t) : bool * t :=
  if disponible l then (false, l)
  else (true, mk (id l) (titulo l) (autor l) (año l) true).

Definition toJSON (l : t) : json :=
  mkJson (id l) (titulo l) (autor l) (año l) (Some (disponible l)).

Definition fromJSON (obj : json) : t :=
  let libro := new (jid obj) (jtitulo obj) (jautor obj) (jaño obj) in
  match jdisponible obj with
  | Some false => snd (prestar libro)
  | _ => libro
  end.

End Libro.

(** ** Usuario.ts *)

Module Usuario.

Record t : Type := mk {
  id : Z;
  nombre : string
}.

Record json : Type := mkJson {
  jid : Z;
  jnombre : string
}.

Definition toJSON (u : t) : json := mkJson (id u) (nombre u).

Definition fromJSON (obj : json) : t := mk (jid obj) (jnombre obj).

End Usuario.

(** ** Prestamo.ts *)

Module Prestamo.

(** [fechaDevolucion = None] is the property left [undefined]. *)
Record t : Type := mk {
  id : Z;
  libroId : Z;
  usuarioId : Z;
  fechaPrestamo : string;
  fechaDevolucion : option string
}.

Record json : Type := mkJson {
  jid : Z;
  jlibroId : Z;
  jusuarioId : Z;
  jfechaPrestamo : string;
  jfechaDevolucion : option string
}.

(** [return !this.fechaDevolucion]. *)
Definition isActivo (p : t) : bool := negb (truthy_opt (fechaDevolucion p)).

Definition devolver (fecha : string) (p : t) : bool * t :=
  if negb (isActivo p) then (false, p)
  else (true, mk (id p) (libroId p) (usuarioId p) (fechaPrestamo p) (Some fecha)).

Definition toJSON (p : t) : json :=
  mkJson (id p) (libroId p) (usuarioId p) (fechaPrestamo p) (fechaDevolucion p).

Definition fromJSON (obj : json) : t :=
  mk (jid obj) (jlibroId obj) (jusuarioId obj) (jfechaPrestamo obj)
     (jfechaDevolucion obj).

End Prestamo.

(** ** The snapshot and the storage port (IStorage.ts) *)

(** The counters object [{ libro, usuario, prestamo }]. *)
Module NextIds.

Record t : Type := mk {
  libro : Z;
  usuario : Z;
  prestamo : Z
}.

End NextIds.

(** [DBShape]. The three arrays are typed [any[]] and [load] tests them with
    [Array.isArray], and tests [nextIds] for truthiness: [None] is a property
    that fails the test. *)
Record DBShape : Type := mkDB {
  db_libros : option (list Libro.json);
  db_usuarios : option (list Usuario.json);
  db_prestamos : option (list Prestamo.json);
  db_nextIds : option NextIds.t
}.

Module IStorage.

(** The port is modelled by what it holds: the snapshot last saved, or
    nothing ([load] returns [null]). *)
Definition t : Type := option DBShape.

Definition save (obj : DBShape) (_ : t) : t := Some obj.

Definition load (st : t) : option DBShape := st.

End IStorage.

(** ** Biblioteca.ts *)

Module Biblioteca.

(** The private fields of the service. [storage] is the injected port,
    carried as the content it holds. The port keeps a serialized copy of
    what [save] hands it (the JSON adapter writes a string to a file), so the
    snapshot is a value of its own here. *)
Record t : Type := mk {
  libros : JsMap.t Libro.t;
  usuarios : JsMap.t Usuario.t;
  prestamos : JsMap.t Prestamo.t;
  nextIds : NextIds.t;
  storage : IStorage.t
}.

(** The object literal [{ ok, mensaje, prestamo? }] the two loan operations
    return; [res_prestamo = None] is the property left out. *)
Record Resultado : Type := mkRes {
  ok : bool;
  mensaje : string;
  res_prestamo : option Prestamo.t
}.

Record Estadisticas : Type := mkEst {
  totalLibros : nat;
  disponibles : nat;
  prestamosActivos : nat
}.

(** The object [save] builds before it calls the port. *)
Definition toDB (b : t) : DBShape :=
  mkDB (Some (map Libro.toJSON (JsMap.values (libros b))))
       (Some (map Usuario.toJSON (JsMap.values (usuarios b))))
       (Some (map Prestamo.toJSON (JsMap.values (prestamos b))))
       (Some (nextIds b)).

Definition save (b : t) : t :=
  mk (libros b) (usuarios b) (prestamos b) (nextIds b)
     (IStorage.save (toDB b) (storage b)).

(** The three loops of [load], [for (const lb of data.libros)
    this.libros.set(lb.id, Libro.fromJSON(lb))] and its two siblings, and the
    one schema they share. *)
Definition cargar {V J : Type} (jid : J -> Z) (fromJSON : J -> V)
    (arr : list J) (m : JsMap.t V) : JsMap.t V :=
  fold_left (fun m j => JsMap.set (jid j) (fromJSON j) m) arr m.

Definition load_libros (arr : list Libro.json) (m : JsMap.t Libro.t) :=
  fold_left (fun m lb => JsMap.set (Libro.jid lb) (Libro.fromJSON lb) m) arr m.

Definition load_usuarios (arr : list Usuario.json) (m : JsMap.t Usuario.t) :=
  fold_left (fun m us => JsMap.set (Usuario.jid us) (Usuario.fromJSON us) m) arr m.

Definition load_prestamos (arr : list Prestamo.json) (m : JsMap.t Prestamo.t) :=
  fold_left (fun m pr => JsMap.set (Prestamo.jid pr) (Prestamo.fromJSON pr) m) arr m.

Definition load (b : t) : t :=
  match IStorage.load (storage b) with
  | None => b
  | Some data =>
      mk (match db_libros data with
          | Some arr => load_libros arr (libros b)
          | None => libros b
          end)
         (match db_usuarios data with
          | Some arr => load_usuarios arr (usuarios b)
          | None => usuarios b
          end)
         (match db_prestamos data with
          | Some arr => load_prestamos arr (prestamos b)
          | None => prestamos b
          end)
         (match db_nextIds data with
          | Some n => n
          | None => nextIds b
          end)
         (storage b)
  end.

(** The field initialisers of the class: three empty maps and the counters
    at 1. *)
Definition fresh (storage : IStorage.t) : t :=
  mk JsMap.empty JsMap.empty JsMap.empty (NextIds.mk 1 1 1) storage.

(** [new Biblioteca(storage)]. *)
Definition new (storage : IStorage.t) : t := load (fresh storage).

(** [this.nextIds.libro++] is [id + 1] here, as in [crearUsuario] and
    [prestarLibro]: see the note on numbers at the head of the file. *)
Definition crearLibro (titulo autor : string) (año : Z) (b : t) : Libro.t * t :=
  let id := NextIds.libro (nextIds b) in
  let nextIds1 :=
    NextIds.mk (id + 1) (NextIds.usuario (nextIds b)) (NextIds.prestamo (nextIds b)) in
  let libro := Libro.new id titulo autor año in
  (libro,
   save (mk (JsMap.set id libro (libros b)) (usuarios b) (prestamos b)
            nextIds1 (storage b))).

Definition listarLibros (b : t) : list Libro.t := JsMap.values (libros b).

Definition crearUsuario (nombre : string) (b : t) : Usuario.t * t :=
  let id := NextIds.usuario (nextIds b) in
  let nextIds1 :=
    NextIds.mk (NextIds.libro (nextIds b)) (id + 1) (NextIds.prestamo (nextIds b)) in
  let usuario := Usuario.mk id nombre in
  (usuario,
   save (mk (libros b) (JsMap.set id usuario (usuarios b)) (prestamos b)
            nextIds1 (storage b))).

Definition listarUsuarios (b : t) : list Usuario.t := JsMap.values (usuarios b).

(** [prestarLibro], with one more component than the method returns: the
    value of the statement [libro.prestar();], which the method drops
    ([None] when the statement is not reached). *)
Definition prestarLibro_aux (ahora : string) (libroId usuarioId : Z) (b : t)
  : Resultado * t * option bool :=
  match JsMap.get libroId (libros b) with
  | None => (mkRes false "Libro no encontrado" None, b, None)
  | Some libro =>
      match JsMap.get usuarioId (usuarios b) with
      | None => (mkRes false "Usuario no encontrado" None, b, None)
      | Some _ =>
          if negb (Libro.isDisponible libro)
          then (mkRes false "Libro no disponible" None, b, None)
          else
            let id := NextIds.prestamo (nextIds b) in
            let nextIds1 :=
              NextIds.mk (NextIds.libro (nextIds b)) (NextIds.usuario (nextIds b))
                         (id + 1) in
            let prestamo := Prestamo.mk id libroId usuarioId ahora None in
            let (r, libro1) := Libro.prestar libro in
            (mkRes true "Préstamo registrado" (Some prestamo),
             save (mk (JsMap.set libroId libro1 (libros b)) (usuarios b)
                      (JsMap.set id prestamo (prestamos b)) nextIds1 (storage b)),
             Some r)
      end
  end.

Definition prestarLibro (ahora : string) (libroId usuarioId : Z) (b : t)
  : Resultado * t :=
  fst (prestarLibro_aux ahora libroId usuarioId b).

(** [devolverLibro], with the values of the two statements
    [prestamo.devolver(...);] and [libro.devolver();], which the method
    drops. *)
Definition devolverLibro_aux (ahora : string) (prestamoId : Z) (b : t)
  : Resultado * t * option (bool * bool) :=
  match JsMap.get prestamoId (prestamos b) with
  | None => (mkRes false "Préstamo no encontrado" None, b, None)
  | Some prestamo =>
      if negb (Prestamo.isActivo prestamo)
      then (mkRes false "Ya devuelto" None, b, None)
      else
        match JsMap.get (Prestamo.libroId prestamo) (libros b) with
        | None => (mkRes false "Libro inexistente" None, b, None)
        | Some libro =>
            let (r1, prestamo1) := Prestamo.devolver ahora prestamo in
            let (r2, libro1) := Libro.devolver libro in
            (mkRes true "Libro devuelto" None,
             save (mk (JsMap.set (Prestamo.libroId prestamo) libro1 (libros b))
                      (usuarios b)
                      (JsMap.set prestamoId prestamo1 (prestamos b))
                      (nextIds b) (storage b)),
             Some (r1, r2))
        end
  end.

Definition devolverLibro (ahora : string) (prestamoId : Z) (b : t)
  : Resultado * t :=
  fst (devolverLibro_aux ahora prestamoId b).

Definition listarPrestamos (activosOnly : bool) (b : t) : list Prestamo.t :=
  let arr := JsMap.values (prestamos b) in
  if activosOnly then filter Prestamo.isActivo arr else arr.

Definition estadisticas (b : t) : Estadisticas :=
  mkEst (JsMap.size (libros b))
        (List.length (filter Libro.isDisponible (JsMap.values (libros b))))
        (List.length (listarPrestamos true b)).

(** *** Calls from outside *)

Inductive Llamada : Type :=
| CrearLibro (titulo autor : string) (año : Z)
| CrearUsuario (nombre : string)
| PrestarLibro (ahora : string) (libroId usuarioId : Z)
| DevolverLibro (ahora : string) (prestamoId : Z).

Definition ejecutar (c : Llamada) (b : t) : t :=
  match c with
  | CrearLibro titulo autor año => snd (crearLibro titulo autor año b)
  | CrearUsuario nombre => snd (crearUsuario nombre b)
  | PrestarLibro ahora libroId usuarioId => snd (prestarLibro ahora libroId usuarioId b)
  | DevolverLibro ahora prestamoId => snd (devolverLibro ahora prestamoId b)
  end.

(** [toISOString] always returns a date of 24 or 27 characters, never the
    empty string. *)
Definition reloj_valido (c : Llamada) : bool :=
  match c with
  | PrestarLibro ahora _ _ => truthy ahora
  | DevolverLibro ahora _ => truthy ahora
  | _ => true
  end.

(** The states a service that started with no stored data can be in. *)
Inductive alcanzable : t -> Prop :=
| alc_inicial : alcanzable (new None)
| alc_paso (c : Llamada) (b : t) :
    alcanzable b -> reloj_valido c = true -> alcanzable (ejecutar c b).

(** The states of a service object, whatever the port held when it was
    constructed and whatever the clock reads. *)
Inductive estado : t -> Prop :=
| est_new (st : IStorage.t) : estado (new st)
| est_paso (c : Llamada) (b : t) : estado b -> estado (ejecutar c b).

(** Whether a call reports success: the two [crear] methods always return
    the entity, the two loan methods return [ok]. *)
Definition exito (c : Llamada) (b : t) : bool :=
  match c with
  | CrearLibro _ _ _ => true
  | CrearUsuario _ => true
  | PrestarLibro ahora libroId usuarioId => ok (fst (prestarLibro ahora libroId usuarioId b))
  | DevolverLibro ahora prestamoId => ok (fst (devolverLibro ahora prestamoId b))
  end.

(** The number of active loans that point at book [libroId]. *)
Definition prestamos_activos_de (libroId : Z) (b : t) : nat :=
  List.length
    (filter (fun p => Prestamo.isActivo p && (Prestamo.libroId p =? libroId))
            (JsMap.values (prestamos b))).

End Biblioteca.

(** ** The specification's reading of the two loan operations *)

Module Spec.

Import Biblioteca.

Inductive FalloPrestamo : Type :=
| LibroNoEncontrado
| UsuarioNoEncontrado
| LibroNoDisponible.

Definition mensaje_prestamo (f : FalloPrestamo) : string :=
  match f with
  | LibroNoEncontrado => "Libro no encontrado"
  | UsuarioNoEncontrado => "Usuario no encontrado"
  | LibroNoDisponible => "Libro no disponible"
  end.

(** The checks of [lendBook] in the order the specification lists them:
    unknown book, unknown patron, book unavailable. [None]: all pass. *)
Definition validar_prestamo (libroId usuarioId : Z) (b : t) : option FalloPrestamo :=
  if negb (JsMap.has libroId (libros b)) then Some LibroNoEncontrado
  else if negb (JsMap.has usuarioId (usuarios b)) then Some UsuarioNoEncontrado
  else match JsMap.get libroId (libros b) with
       | Some l => if Libro.isDisponible l then None else Some LibroNoDisponible
       | None => None
       end.

Inductive FalloDevolucion : Type :=
| PrestamoNoEncontrado
| YaDevuelto
| LibroInexistente.

Definition mensaje_devolucion (f : FalloDevolucion) : string :=
  match f with
  | PrestamoNoEncontrado => "Préstamo no encontrado"
  | YaDevuelto => "Ya devuelto"
  | LibroInexistente => "Libro inexistente"
  end.

(** The checks of [returnBook] in the order the specification lists them:
    unknown loan, loan already returned, referenced book missing. *)
Definition validar_devolucion (prestamoId : Z) (b : t) : option FalloDevolucion :=
  match JsMap.get prestamoId (prestamos b) with
  | None => Some PrestamoNoEncontrado
  | Some p =>
      if negb (Prestamo.isActivo p) then Some YaDevuelto
      else if negb (JsMap.has (Prestamo.libroId p) (libros b)) then Some LibroInexistente
      else None
  end.

(** What the specification says of two calls of [Prestamo.devolver] in a
    row: the first returns true, the second returns false and changes
    nothing, and the return date is the one of the first call. *)
Definition devuelve_una_vez (fecha1 fecha2 : string) (p : Prestamo.t) : Prop :=
  let r1 := Prestamo.devolver fecha1 p in
  let r2 := Prestamo.devolver fecha2 (snd r1) in
  (fst r1, fst r2) = (true, false) /\
  snd r2 = snd r1 /\
  Prestamo.fechaDevolucion (snd r2) = Some fecha1.

End Spec.

(** ** Invariants of the service *)

Module Inv.

Import Biblioteca.

(** A collection is well keyed: no key twice, and every entity sits under
    its own identifier. *)
Definition bien_indexado {V : Type} (idf : V -> Z) (m : JsMap.t V) : Prop :=
  NoDup (JsMap.keys m) /\ forall k v, In (k, v) m -> idf v = k.

Definition bien_formada (b : t) : Prop :=
  bien_indexado Libro.id (libros b) /\
  bien_indexado Usuario.id (usuarios b) /\
  bien_indexado Prestamo.id (prestamos b).

(** Every key handed out so far lies below the counter. *)
Definition bajo_contador {V : Type} (n : Z) (m : JsMap.t V) : Prop :=
  forall k, In k (JsMap.keys m) -> k < n.

(** What the availability flag of the book under [libroId] says about the
    number of its active loans. *)
Definition activos_esperados (libroId : Z) (b : t) : nat :=
  match JsMap.get libroId (libros b) with
  | Some l => if Libro.isDisponible l then 0%nat else 1%nat
  | None => 0%nat
  end.

Definition coherente (b : t) : Prop :=
  bien_formada b /\
  bajo_contador (NextIds.libro (nextIds b)) (libros b) /\
  bajo_contador (NextIds.prestamo (nextIds b)) (prestamos b) /\
  forall libroId, prestamos_activos_de libroId b = activos_esperados libroId b.

End Inv.

(** ** The states of the specification's end-to-end scenario *)

Module Escenario.

Import Biblioteca.

Definition t1 : string := "2024-05-01T10:00:00.000Z".
Definition t2 : string := "2024-05-02T10:00:00.000Z".

Definition b0 : t := new None.
Definition b1 : t := snd (crearLibro "B1" "Autor" 2001 b0).
Definition b2 : t := snd (crearUsuario "P1" b1).
Definition b3 : t := snd (prestarLibro t1 1 1 b2).
Definition b4 : t := snd (prestarLibro t1 1 1 b3).
Definition b5 : t := snd (devolverLibro t2 1 b4).
Definition b6 : t := snd (devolverLibro t2 1 b5).

(** A stored snapshot whose only loan points at a book that is not there. *)
Definition huerfano : t :=
  new (Some (mkDB (Some []) (Some [Usuario.mkJson 1 "P1"])
                  (Some [Prestamo.mkJson 1 7 1 t1 None])
                  (Some (NextIds.mk 1 2 2)))).

End Escenario.

(** ** Numbers and dates as the code meets them *)

Module Valores.

(** Whether [n++] on a counter that stands at [n] gives [n + 1]: a double
    holds every integer from -2^53 to 2^53 exactly. *)
Definition contador_exacto (n : Z) : bool :=
  (- 2 ^ 53 <=? n) && (n <? 2 ^ 53).






End Valores.

(** ** Further invariants of the states reached from the empty catalog *)

Module Orden.

Import Biblioteca.

(** The identifiers a counter that stands at [n] has handed out, in the
    order it handed them out: 1, 2, ..., n - 1. *)
Definition consecutivos (n : Z) : list Z :=
  map Z.of_nat (seq 1 (Z.to_nat (n - 1))).

(** Each collection holds exactly the identifiers its counter has handed
    out, in creation order. *)
Definition numerada (b : t) : Prop :=
  (1 <= NextIds.libro (nextIds b) /\
   JsMap.keys (libros b) = consecutivos (NextIds.libro (nextIds b))) /\
  (1 <= NextIds.usuario (nextIds b) /\
   JsMap.keys (usuarios b) = consecutivos (NextIds.usuario (nextIds b))) /\
  (1 <= NextIds.prestamo (nextIds b) /\
   JsMap.keys (prestamos b) = consecutivos (NextIds.prestamo (nextIds b))).

(** Every loan points at a book and at a user the catalog holds. *)
Definition referencias_ok (b : t) : Prop :=
  forall p, In p (listarPrestamos false b) ->
            JsMap.has (Prestamo.libroId p) (libros b) = true /\
            JsMap.has (Prestamo.usuarioId p) (usuarios b) = true.

(** The port holds nothing and nothing was created yet, or it holds the
    snapshot of the state. *)
Definition persistida (b : t) : Prop :=
  b = new None \/ storage b = Some (toDB b).

(** [p.devolver(f)] for each date of [fechas] in turn: the values returned
    and the loan at the end. *)
Fixpoint devolver_todas (fechas : list string) (p : Prestamo.t)
  : list bool * Prestamo.t :=
  match fechas with
  | [] => ([], p)
  | f :: fs =>
      let (r, p1) := Prestamo.devolver f p in
      let (rs, p2) := devolver_todas fs p1 in
      (r :: rs, p2)
  end.

End Orden.

(** ** main.ts *)

Module Main.

Import Biblioteca.

(** [demo()], as the state of the service it leaves behind. [st] is what
    the port holds when the demo starts; [ahora1] and [ahora2] are the two
    clock readings, taken by [prestarLibro] and by [devolverLibro]. *)
Definition demo (ahora1 ahora2 : string) (st : IStorage.t) : t :=
  let b0 := new st in
  let b1 :=
    if Nat.eqb (List.length (listarLibros b0)) 0
    then snd (crearLibro "El Quijote" "Miguel de Cervantes" 1605
           (snd (crearLibro "Don Quijote de la Mancha" "Miguel de Cervantes" 1605
              (snd (crearLibro "Cien años de soledad" "Gabriel García Márquez" 1967 b0)))))
    else b0 in
  let b2 :=
    if Nat.eqb (List.length (listarUsuarios b1)) 0
    then snd (crearUsuario "María García"
           (snd (crearUsuario "Carlos López"
              (snd (crearUsuario "Ana Pérez" b1)))))
    else b1 in
  let b3 :=
    match listarLibros b2, listarUsuarios b2 with
    | l :: _, u :: _ => snd (prestarLibro ahora1 (Libro.id l) (Usuario.id u) b2)
    | _, _ => b2
    end in
  match listarPrestamos true b3 with
  | p :: _ => snd (devolverLibro ahora2 (Prestamo.id p) b3)
  | [] => b3
  end.

(** The demo run once for each pair of clock readings, every run on the
    port the run before left behind, the first on an empty port. *)
Definition demos (relojes : list (string * string)) : t :=
  fold_left (fun b r => demo (fst r) (snd r) (storage b)) relojes (new None).

Definition relojes_validos (relojes : list (string * string)) : bool :=
  forallb (fun r => truthy (fst r) && truthy (snd r)) relojes.

(** What holds between two runs of the demo, after [n] runs. *)
Definition entre_demos (n : nat) (b : t) : Prop :=
  alcanzable b /\ JsMap.size (prestamos b) = n /\
  ((n = 0%nat /\ b = new None) \/
   (estadisticas b = mkEst 3 3 0 /\ JsMap.size (usuarios b) = 3%nat)).

End Main.

(** * Properties *)

Open Scope list_scope.

(** ** The map *)

Module JsMapFacts.

Import JsMap.

Section WithValue.
Context {V : Type}.
Implicit Types (m : JsMap.t V) (k : Z) (v : V).

Lemma get_set_same k v m : get k (set k v m) = Some v.
Proof.
  induction m as [|[k' v'] r IH]; simpl.
  - now rewrite Z.eqb_refl.
  - destruct (k =? k') eqn:E; simpl.
    + now rewrite Z.eqb_refl.
    + now rewrite E.
Qed.

Lemma get_set_other k k' v m : k' <> k -> get k' (set k v m) = get k' m.
Proof.
  intros Hne. induction m as [|[k0 v0] r IH]; simpl.
  - destruct (k' =? k) eqn:E; [apply Z.eqb_eq in E; contradiction | reflexivity].
  - destruct (k =? k0) eqn:E; simpl.
    + apply Z.eqb_eq in E. subst k0.
      destruct (k' =? k) eqn:E'; [apply Z.eqb_eq in E'; contradiction | reflexivity].
    + now rewrite IH.
Qed.

Lemma get_None_keys k m : get k m = None <-> ~ In k (keys m).
Proof.
  induction m as [|[k' v'] r IH]; simpl.
  - tauto.
  - destruct (k =? k') eqn:E.
    + apply Z.eqb_eq in E. split; [discriminate | intros H; exfalso; apply H; auto].
    + apply Z.eqb_neq in E. rewrite IH. split; [intros H [H1|H1]; auto | tauto].
Qed.

Lemma get_Some_In k v m : get k m = Some v -> In (k, v) m.
Proof.
  induction m as [|[k' v'] r IH]; simpl; [discriminate|].
  destruct (k =? k') eqn:E.
  - apply Z.eqb_eq in E. intros [= ->]. left. now subst.
  - auto.
Qed.

Lemma has_get k m : has k m = match get k m with Some _ => true | None => false end.
Proof.
  unfold has. induction m as [|[k' v'] r IH]; simpl; [reflexivity|].
  destruct (k =? k'); simpl; auto.
Qed.

Lemma In_get k v m : NoDup (keys m) -> In (k, v) m -> get k m = Some v.
Proof.
  induction m as [|[k' v'] r IH]; simpl; [tauto|].
  intros Hnd [H|H].
  - injection H as -> ->. now rewrite Z.eqb_refl.
  - inversion Hnd as [|? ? Hni Hnd']; subst.
    destruct (k =? k') eqn:E; [|auto].
    apply Z.eqb_eq in E. subst k'. exfalso. apply Hni.
    change k with (fst (k, v)). now apply in_map.
Qed.

(** A key that is not there yet goes to the end. *)
Lemma set_new k v m : get k m = None -> set k v m = m ++ [(k, v)].
Proof.
  induction m as [|[k' v'] r IH]; simpl; [reflexivity|].
  destruct (k =? k'); [discriminate|]. intros H. now rewrite IH.
Qed.

(** A key that is there keeps the key list as it is. *)
Lemma keys_set_old k v m : get k m <> None -> keys (set k v m) = keys m.
Proof.
  induction m as [|[k' v'] r IH]; simpl; [congruence|].
  destruct (k =? k') eqn:E; simpl.
  - apply Z.eqb_eq in E. now subst.
  - intros H. f_equal. now apply IH.
Qed.

Lemma keys_set_new k v m : get k m = None -> keys (set k v m) = keys m ++ [k].
Proof.
  intros H. rewrite set_new by assumption. unfold keys. now rewrite map_app.
Qed.

Lemma In_keys_set k k' v m : In k' (keys (set k v m)) <-> k' = k \/ In k' (keys m).
Proof.
  destruct (get k m) eqn:E.
  - rewrite keys_set_old by congruence. split; [auto|].
    intros [->|H]; [|assumption].
    destruct (in_dec Z.eq_dec k (keys m)) as [H|H]; [assumption|].
    apply get_None_keys in H. congruence.
  - rewrite keys_set_new by assumption. rewrite in_app_iff. simpl. intuition.
Qed.

Lemma NoDup_keys_set k v m : NoDup (keys m) -> NoDup (keys (set k v m)).
Proof.
  intros Hnd. destruct (get k m) eqn:E.
  - rewrite keys_set_old by congruence. assumption.
  - rewrite keys_set_new by assumption.
    apply NoDup_rev in Hnd. rewrite <- (rev_involutive (keys m ++ [k])).
    apply NoDup_rev. rewrite rev_app_distr. simpl. constructor; [|assumption].
    rewrite <- in_rev. now apply get_None_keys.
Qed.

Lemma In_set k v k' v' m :
  In (k', v') (set k v m) -> (k' = k /\ v' = v) \/ In (k', v') m.
Proof.
  induction m as [|[k0 v0] r IH]; simpl.
  - intros [[= <- <-]|[]]. auto.
  - destruct (k =? k0) eqn:E; simpl.
    + intros [[= <- <-]|H]; auto.
    + intros [H|H]; [auto|]. destruct (IH H); auto.
Qed.

Lemma count_set (f : V -> bool) k v m :
  (count f (set k v m) +
   match get k m with Some v0 => if f v0 then 1 else 0 | None => 0 end
   = count f m + if f v then 1 else 0)%nat.
Proof.
  unfold count. induction m as [|[k' v'] r IH]; simpl.
  - destruct (f v); reflexivity.
  - destruct (k =? k'); simpl.
    + destruct (f v), (f v'); simpl; lia.
    + destruct (f v'); simpl; lia.
Qed.

End WithValue.

End JsMapFacts.

(** ** Well-keyed collections *)

Module InvFacts.

Import JsMap JsMapFacts Inv.

Section WithValue.
Context {V : Type} (idf : V -> Z).
Implicit Types (m : JsMap.t V) (k : Z) (v : V).

Lemma bien_indexado_empty : bien_indexado idf (@JsMap.empty V).
Proof. split; [constructor | intros k v []]. Qed.

Lemma bien_indexado_set k v m :
  bien_indexado idf m -> idf v = k -> bien_indexado idf (set k v m).
Proof.
  intros [Hnd Hid] Hv. split.
  - now apply NoDup_keys_set.
  - intros k' v' Hin. apply In_set in Hin as [[-> ->]|Hin]; auto.
Qed.

Lemma bien_indexado_get k v m :
  bien_indexado idf m -> get k m = Some v -> idf v = k.
Proof. intros [_ Hid] H. apply Hid. now apply get_Some_In. Qed.

Lemma bajo_contador_set (n n' : Z) k v m :
  bajo_contador n m -> n <= n' -> k < n' -> bajo_contador n' (set k v m).
Proof.
  intros Hb Hle Hk k' Hin. apply In_keys_set in Hin as [->|Hin]; [assumption|].
  specialize (Hb k' Hin). lia.
Qed.

Lemma bajo_contador_fresh (n : Z) m : bajo_contador n m -> get n m = None.
Proof.
  intros Hb. apply get_None_keys. intros Hin. specialize (Hb n Hin). lia.
Qed.

End WithValue.

End InvFacts.

(** ** Libro and Prestamo: the two small state machines *)

Module LibroFacts.

Import Libro.

Lemma prestar_disponible l :
  isDisponible l = true -> prestar l = (true, mk (id l) (titulo l) (autor l) (año l) false).
Proof. unfold isDisponible, prestar. now intros ->. Qed.

Lemma devolver_disponible l : snd (devolver l) = mk (id l) (titulo l) (autor l) (año l) true.
Proof. unfold devolver. destruct l as [i t a y d]. now destruct d. Qed.

Lemma devolver_resultado l : fst (devolver l) = negb (isDisponible l).
Proof. unfold devolver, isDisponible. now destruct (disponible l). Qed.

Lemma libro_fromJSON_toJSON l : fromJSON (toJSON l) = l.
Proof. destruct l as [i t a y d]. now destruct d. Qed.

End LibroFacts.

Module PrestamoFacts.

Import Prestamo Spec.

Lemma devolver_activo fecha p :
  isActivo p = true ->
  devolver fecha p = (true, mk (id p) (libroId p) (usuarioId p) (fechaPrestamo p) (Some fecha)).
Proof. unfold devolver. now intros ->. Qed.

Lemma isActivo_devuelto fecha p :
  isActivo (mk (id p) (libroId p) (usuarioId p) (fechaPrestamo p) (Some fecha))
  = negb (truthy fecha).
Proof. reflexivity. Qed.

Lemma prestamo_fromJSON_toJSON p : fromJSON (toJSON p) = p.
Proof. now destruct p. Qed.

(** Outside the timestamps: when the date handed to the first call is the
    empty string, [fechaDevolucion] is set to a falsy value, [isActivo] still
    answers true, and the second call returns true and overwrites the date. *)
Lemma devolver_fecha_vacia :
  isActivo (mk 1 1 1 "2024-05-01T10:00:00.000Z" None) = true /\
  ~ devuelve_una_vez EmptyString "2024-05-02T10:00:00.000Z"
      (mk 1 1 1 "2024-05-01T10:00:00.000Z" None).
Proof.
  split; [reflexivity|]. unfold devuelve_una_vez. cbn. intros [H _]. discriminate H.
Qed.





End PrestamoFacts.

(** ** The catalog service: validation and persistence *)

Module BibliotecaFacts.

Import JsMapFacts Biblioteca Spec.

(** The outcome of [prestarLibro], check by check. *)
Lemma prestarLibro_casos ahora libroId usuarioId b :
  match validar_prestamo libroId usuarioId b with
  | Some f =>
      prestarLibro ahora libroId usuarioId b
      = (mkRes false (mensaje_prestamo f) None, b)
  | None => ok (fst (prestarLibro ahora libroId usuarioId b)) = true
  end.
Proof.
  unfold validar_prestamo, prestarLibro, prestarLibro_aux. rewrite !has_get.
  destruct (JsMap.get libroId (libros b)) as [l|]; cbn [negb]; [|reflexivity].
  destruct (JsMap.get usuarioId (usuarios b)) as [u|]; cbn [negb]; [|reflexivity].
  destruct (Libro.isDisponible l); cbn [negb]; [|reflexivity].
  now destruct (Libro.prestar l).
Qed.

(** Any failure of [prestarLibro] leaves the state as it was. *)
Lemma prestarLibro_fallo_sin_cambio ahora libroId usuarioId b :
  ok (fst (prestarLibro ahora libroId usuarioId b)) = false ->
  snd (prestarLibro ahora libroId usuarioId b) = b.
Proof.
  pose proof (prestarLibro_casos ahora libroId usuarioId b) as H.
  destruct (validar_prestamo libroId usuarioId b); [now rewrite H | congruence].
Qed.

(** C2: [prestarLibro] runs the three checks in the order unknown book,
    unknown patron, book unavailable; the first one that fails gives
    [ok = false] with its message and no loan, and the whole state (the three
    collections, the three counters and what the port holds) is the state
    before the call; when none fails the call reports success, so every
    failure leaves the state unchanged. *)
Theorem prestarLibro_validaciones (ahora : string) (libroId usuarioId : Z) (b : t) :
  match validar_prestamo libroId usuarioId b with
  | Some f =>
      prestarLibro ahora libroId usuarioId b
      = (mkRes false (mensaje_prestamo f) None, b)
  | None => ok (fst (prestarLibro ahora libroId usuarioId b)) = true
  end /\
  (ok (fst (prestarLibro ahora libroId usuarioId b)) = false ->
   snd (prestarLibro ahora libroId usuarioId b) = b).
Proof.
  split; [apply prestarLibro_casos | apply prestarLibro_fallo_sin_cambio].
Qed.

(** The outcome of [devolverLibro], check by check. *)
Lemma devolverLibro_casos ahora prestamoId b :
  match validar_devolucion prestamoId b with
  | Some f =>
      devolverLibro ahora prestamoId b = (mkRes false (mensaje_devolucion f) None, b)
  | None => ok (fst (devolverLibro ahora prestamoId b)) = true
  end.
Proof.
  unfold validar_devolucion, devolverLibro, devolverLibro_aux.
  destruct (JsMap.get prestamoId (prestamos b)) as [p|] eqn:Ep; [|reflexivity].
  destruct (Prestamo.isActivo p) eqn:A; cbn [negb]; [|reflexivity].
  rewrite has_get.
  destruct (JsMap.get (Prestamo.libroId p) (libros b)) as [l|]; cbn [negb]; [|reflexivity].
  destruct (Prestamo.devolver ahora p), (Libro.devolver l). reflexivity.
Qed.

(** Any failure of [devolverLibro] leaves the state as it was. *)
Lemma devolverLibro_fallo_sin_cambio ahora prestamoId b :
  ok (fst (devolverLibro ahora prestamoId b)) = false ->
  snd (devolverLibro ahora prestamoId b) = b.
Proof.
  pose proof (devolverLibro_casos ahora prestamoId b) as H.
  destruct (validar_devolucion prestamoId b); [now rewrite H | congruence].
Qed.

(** C3: [devolverLibro] checks, in this order, that the loan exists, that it
    is still active and that its book exists; each failure gives [ok = false]
    with its message, and the state is the state before the call; when none
    fails the call reports success, so every failure leaves the state
    unchanged. *)
Theorem devolverLibro_validaciones (ahora : string) (prestamoId : Z) (b : t) :
  match validar_devolucion prestamoId b with
  | Some f =>
      devolverLibro ahora prestamoId b = (mkRes false (mensaje_devolucion f) None, b)
  | None => ok (fst (devolverLibro ahora prestamoId b)) = true
  end /\
  (ok (fst (devolverLibro ahora prestamoId b)) = false ->
   snd (devolverLibro ahora prestamoId b) = b).
Proof.
  split; [apply devolverLibro_casos | apply devolverLibro_fallo_sin_cambio].
Qed.

(** *** Persistence *)

Lemma toDB_save b : toDB (save b) = toDB b.
Proof. reflexivity. Qed.

Lemma storage_save b : storage (save b) = Some (toDB (save b)).
Proof. reflexivity. Qed.

(** Every call that reports success ends in [save]: the port holds the
    object [save] built from the state the call leaves behind. *)
Lemma guardado_tras_exito (c : Llamada) (b : t) :
  exito c b = true -> storage (ejecutar c b) = Some (toDB (ejecutar c b)).
Proof.
  destruct c as [titulo autor año|nombre|ahora libroId usuarioId|ahora prestamoId];
    cbn [exito ejecutar].
  - intros _. apply storage_save.
  - intros _. apply storage_save.
  - unfold prestarLibro, prestarLibro_aux.
    destruct (JsMap.get libroId (libros b)) as [l|]; [|discriminate].
    destruct (JsMap.get usuarioId (usuarios b)); [|discriminate].
    destruct (negb (Libro.isDisponible l)); [discriminate|].
    destruct (Libro.prestar l). intros _. apply storage_save.
  - unfold devolverLibro, devolverLibro_aux.
    destruct (JsMap.get prestamoId (prestamos b)) as [p|]; [|discriminate].
    destruct (negb (Prestamo.isActivo p)); [discriminate|].
    destruct (JsMap.get (Prestamo.libroId p) (libros b)) as [l|]; [|discriminate].
    destruct (Prestamo.devolver ahora p), (Libro.devolver l).
    intros _. apply storage_save.
Qed.

(** *** The calls whose result the service drops *)

(** The statement [libro.prestar();] never evaluates to false. *)
Lemma prestar_interno_nunca_falla ahora libroId usuarioId b :
  snd (prestarLibro_aux ahora libroId usuarioId b) <> Some false.
Proof.
  unfold prestarLibro_aux.
  destruct (JsMap.get libroId (libros b)) as [l|]; [|discriminate].
  destruct (JsMap.get usuarioId (usuarios b)); [|discriminate].
  destruct (Libro.isDisponible l) eqn:D; cbn [negb]; [|discriminate].
  rewrite (LibroFacts.prestar_disponible l D). discriminate.
Qed.

(** C7: once the three checks of [prestarLibro] have passed, the call
    [libro.prestar()] inside it returns true, and the book the catalog then
    holds under [libroId] is the lent one. *)
Theorem prestar_interno_exitoso (ahora : string) (libroId usuarioId : Z) (b : t) :
  validar_prestamo libroId usuarioId b = None ->
  snd (prestarLibro_aux ahora libroId usuarioId b) = Some true /\
  exists l,
    JsMap.get libroId (libros b) = Some l /\
    Libro.prestar l = (true, Libro.mk (Libro.id l) (Libro.titulo l) (Libro.autor l)
                                      (Libro.año l) false) /\
    JsMap.get libroId (libros (snd (prestarLibro ahora libroId usuarioId b)))
    = Some (snd (Libro.prestar l)).
Proof.
  unfold validar_prestamo, prestarLibro, prestarLibro_aux. rewrite !has_get.
  destruct (JsMap.get libroId (libros b)) as [l|]; cbn [negb]; [|discriminate].
  destruct (JsMap.get usuarioId (usuarios b)) as [u|]; cbn [negb]; [|discriminate].
  destruct (Libro.isDisponible l) eqn:D; cbn [negb]; [|discriminate].
  intros _. pose proof (LibroFacts.prestar_disponible l D) as Hp.
  rewrite Hp. cbn [fst snd].
  split; [reflexivity|]. exists l. split; [reflexivity|]. split; [exact Hp|].
  rewrite Hp. cbn. apply get_set_same.
Qed.

Lemma prestar_interno_exitoso_witness :
  let b := ejecutar (CrearUsuario "Ana")
             (ejecutar (CrearLibro "El Aleph" "Borges" 1949) (new None)) in
  snd (prestarLibro_aux "2024-05-01T10:00:00.000Z" 1 1 b) = Some true /\
  exists l,
    JsMap.get 1 (libros b) = Some l /\
    Libro.prestar l = (true, Libro.mk (Libro.id l) (Libro.titulo l) (Libro.autor l)
                                      (Libro.año l) false) /\
    JsMap.get 1 (libros (snd (prestarLibro "2024-05-01T10:00:00.000Z" 1 1 b)))
    = Some (snd (Libro.prestar l)).
Proof. cbv zeta. apply prestar_interno_exitoso. reflexivity. Defined.

(** C9: when the loan is found, is active and its book is found,
    [devolverLibro] reports success whatever [libro.devolver()] returns. That
    call returns false exactly when the book was already available; the loan
    is closed all the same (it carries the date read from the clock), and an
    available book stays as it was. *)
Theorem devolverLibro_exito_incondicional
    (ahora : string) (prestamoId : Z) (b : t) (p : Prestamo.t) (l : Libro.t) :
  JsMap.get prestamoId (prestamos b) = Some p ->
  Prestamo.isActivo p = true ->
  JsMap.get (Prestamo.libroId p) (libros b) = Some l ->
  let p1 := Prestamo.mk (Prestamo.id p) (Prestamo.libroId p) (Prestamo.usuarioId p)
                        (Prestamo.fechaPrestamo p) (Some ahora) in
  let b1 := snd (devolverLibro ahora prestamoId b) in
  fst (devolverLibro ahora prestamoId b) = mkRes true "Libro devuelto" None /\
  snd (devolverLibro_aux ahora prestamoId b) = Some (true, negb (Libro.isDisponible l)) /\
  JsMap.get prestamoId (prestamos b1) = Some p1 /\
  Prestamo.isActivo p1 = negb (truthy ahora) /\
  (Libro.isDisponible l = true -> JsMap.get (Prestamo.libroId p) (libros b1) = Some l).
Proof.
  intros Hp Hact Hl p1 b1. subst p1 b1.
  unfold devolverLibro, devolverLibro_aux. rewrite Hp, Hact, Hl. cbn [negb].
  rewrite (PrestamoFacts.devolver_activo ahora p Hact).
  pose proof (LibroFacts.devolver_resultado l) as Hr.
  destruct (Libro.devolver l) as [r2 l1] eqn:El. cbn [fst snd] in *. subst r2.
  repeat split.
  - cbn. apply get_set_same.
  - intros D. cbn. unfold Libro.devolver in El. unfold Libro.isDisponible in D.
    rewrite D in El. injection El as _ <-. apply get_set_same.
Qed.

(** A snapshot edited by hand: book 1 is marked available although loan 1 on
    it is still open. *)
Lemma devolverLibro_exito_incondicional_witness :
  let db := mkDB (Some [Libro.mkJson 1 "El Aleph" "Borges" 1949 (Some true)])
                 (Some [Usuario.mkJson 1 "Ana"])
                 (Some [Prestamo.mkJson 1 1 1 "2024-05-01T10:00:00.000Z" None])
                 (Some (NextIds.mk 2 2 2)) in
  let b := new (Some db) in
  let ahora := "2024-05-02T10:00:00.000Z" in
  ok (fst (devolverLibro ahora 1 b)) = true /\
  snd (devolverLibro_aux ahora 1 b) = Some (true, false) /\
  JsMap.get 1 (prestamos (snd (devolverLibro ahora 1 b)))
  = Some (Prestamo.mk 1 1 1 "2024-05-01T10:00:00.000Z" (Some ahora)).
Proof.
  cbv zeta.
  pose proof (devolverLibro_exito_incondicional "2024-05-02T10:00:00.000Z" 1
    (new (Some (mkDB (Some [Libro.mkJson 1 "El Aleph" "Borges" 1949 (Some true)])
                     (Some [Usuario.mkJson 1 "Ana"])
                     (Some [Prestamo.mkJson 1 1 1 "2024-05-01T10:00:00.000Z" None])
                     (Some (NextIds.mk 2 2 2)))))
    (Prestamo.mk 1 1 1 "2024-05-01T10:00:00.000Z" None)
    (Libro.mk 1 "El Aleph" "Borges" 1949 true)
    eq_refl eq_refl eq_refl) as (H1 & H2 & H3 & _).
  split; [now rewrite H1|]. split; [exact H2 | exact H3].
Defined.

(** *** Statistics *)

(** C8: [estadisticas] is computed from the two collections it reads and
    from nothing else; the number of available books is at most the number of
    books, and the number of active loans is the length of
    [listarPrestamos(true)]. *)
Theorem estadisticas_coherentes (b : t) :
  (disponibles (estadisticas b) <= totalLibros (estadisticas b))%nat /\
  prestamosActivos (estadisticas b) = List.length (listarPrestamos true b) /\
  estadisticas b
  = mkEst (List.length (listarLibros b))
          (JsMap.count Libro.isDisponible (libros b))
          (JsMap.count Prestamo.isActivo (prestamos b)) /\
  forall b', libros b' = libros b -> prestamos b' = prestamos b ->
             estadisticas b' = estadisticas b.
Proof.
  repeat split.
  - cbn. unfold JsMap.values, JsMap.size.
    rewrite <- (length_map snd (libros b)). apply filter_length_le.
  - unfold estadisticas, listarLibros, JsMap.size, JsMap.values. now rewrite length_map.
  - intros b' Hl Hp. unfold estadisticas, listarPrestamos. now rewrite Hl, Hp.
Qed.

End BibliotecaFacts.

(** ** Well-formed states *)

Module BienFormada.

Import JsMapFacts InvFacts Biblioteca Inv.

Lemma bien_formada_fresh st : bien_formada (fresh st).
Proof. repeat split; try constructor; intros k v []. Qed.

Lemma get_In_keys {V : Type} k (v : V) m : JsMap.get k m = Some v -> In k (JsMap.keys m).
Proof.
  intros H. destruct (in_dec Z.eq_dec k (JsMap.keys m)) as [Hin|Hin]; [assumption|].
  apply get_None_keys in Hin. congruence.
Qed.

Lemma libro_fromJSON_id j : Libro.id (Libro.fromJSON j) = Libro.jid j.
Proof. unfold Libro.fromJSON. destruct (Libro.jdisponible j) as [[|]|]; reflexivity. Qed.

Lemma bien_indexado_load_libros arr m :
  bien_indexado Libro.id m -> bien_indexado Libro.id (load_libros arr m).
Proof.
  revert m. induction arr as [|j arr IH]; intros m Hm; [exact Hm|].
  apply IH. apply bien_indexado_set; [assumption | apply libro_fromJSON_id].
Qed.

Lemma bien_indexado_load_usuarios arr m :
  bien_indexado Usuario.id m -> bien_indexado Usuario.id (load_usuarios arr m).
Proof.
  revert m. induction arr as [|j arr IH]; intros m Hm; [exact Hm|].
  apply IH. now apply bien_indexado_set.
Qed.

Lemma bien_indexado_load_prestamos arr m :
  bien_indexado Prestamo.id m -> bien_indexado Prestamo.id (load_prestamos arr m).
Proof.
  revert m. induction arr as [|j arr IH]; intros m Hm; [exact Hm|].
  apply IH. now apply bien_indexado_set.
Qed.

Lemma bien_formada_load b : bien_formada b -> bien_formada (load b).
Proof.
  intros (Hl & Hu & Hp). unfold load.
  destruct (IStorage.load (storage b)) as [data|]; [|exact (conj Hl (conj Hu Hp))].
  split; [|split]; cbn.
  - destruct (db_libros data); [now apply bien_indexado_load_libros | assumption].
  - destruct (db_usuarios data); [now apply bien_indexado_load_usuarios | assumption].
  - destruct (db_prestamos data); [now apply bien_indexado_load_prestamos | assumption].
Qed.

Lemma bien_formada_new st : bien_formada (new st).
Proof. apply bien_formada_load, bien_formada_fresh. Qed.

Lemma bien_formada_ejecutar c b : bien_formada b -> bien_formada (ejecutar c b).
Proof.
  intros Hbf. pose proof Hbf as (Hl & Hu & Hp).
  destruct c as [titulo autor año|nombre|ahora libroId usuarioId|ahora prestamoId];
    cbn [ejecutar].
  - split; [|split]; cbn; auto. now apply bien_indexado_set.
  - split; [|split]; cbn; auto. now apply bien_indexado_set.
  - unfold prestarLibro, prestarLibro_aux.
    destruct (JsMap.get libroId (libros b)) as [l|] eqn:El; [|exact Hbf].
    destruct (JsMap.get usuarioId (usuarios b)) as [u|]; [|exact Hbf].
    destruct (Libro.isDisponible l) eqn:D; cbn [negb]; [|exact Hbf].
    rewrite (LibroFacts.prestar_disponible l D).
    split; [|split]; cbn; auto.
    + apply bien_indexado_set; auto. exact (bien_indexado_get _ _ _ _ Hl El).
    + now apply bien_indexado_set.
  - unfold devolverLibro, devolverLibro_aux.
    destruct (JsMap.get prestamoId (prestamos b)) as [p|] eqn:Ep; [|exact Hbf].
    destruct (Prestamo.isActivo p) eqn:A; cbn [negb]; [|exact Hbf].
    destruct (JsMap.get (Prestamo.libroId p) (libros b)) as [l|] eqn:El; [|exact Hbf].
    rewrite (PrestamoFacts.devolver_activo ahora p A).
    pose proof (LibroFacts.devolver_disponible l) as Hd.
    destruct (Libro.devolver l) as [r2 l1]. cbn [fst snd] in *. subst l1.
    split; [|split]; cbn; auto.
    + apply bien_indexado_set; auto. exact (bien_indexado_get _ _ _ _ Hl El).
    + apply bien_indexado_set; auto. exact (bien_indexado_get _ _ _ _ Hp Ep).
Qed.

Lemma estado_bien_formada b : estado b -> bien_formada b.
Proof.
  induction 1 as [st|c b Hb IH]; [apply bien_formada_new | now apply bien_formada_ejecutar].
Qed.

(** A value that is listed sits under its own identifier. *)
Lemma valor_get {V : Type} (idf : V -> Z) (m : JsMap.t V) (v : V) :
  bien_indexado idf m -> In v (JsMap.values m) -> JsMap.get (idf v) m = Some v.
Proof.
  intros (Hnd & Hid) Hin. unfold JsMap.values in Hin.
  apply in_map_iff in Hin as ([k v'] & Heq & Hin). cbn in Heq. subst v'.
  rewrite (Hid k v Hin). now apply In_get.
Qed.

Lemma listado_get b l :
  bien_formada b -> In l (listarLibros b) -> JsMap.get (Libro.id l) (libros b) = Some l.
Proof. intros (Hl & _) Hin. now apply valor_get. Qed.

End BienFormada.

(** ** The loan state machine across the service *)

Module Coherencia.

Import JsMapFacts InvFacts Biblioteca Inv BienFormada.

Lemma prestamos_activos_de_count libroId b :
  prestamos_activos_de libroId b
  = JsMap.count (fun p => Prestamo.isActivo p && (Prestamo.libroId p =? libroId))
                (prestamos b).
Proof. reflexivity. Qed.

Lemma coherente_new : coherente (new None).
Proof.
  split; [apply bien_formada_fresh|].
  split; [intros k []|]. split; [intros k []|]. reflexivity.
Qed.

Lemma coherente_crearLibro titulo autor año b :
  coherente b -> coherente (snd (crearLibro titulo autor año b)).
Proof.
  intros (Hbf & Hbl & Hbp & Hc).
  split; [exact (bien_formada_ejecutar (CrearLibro titulo autor año) b Hbf)|].
  cbn. split; [|split].
  - apply (bajo_contador_set (NextIds.libro (nextIds b))); auto; lia.
  - exact Hbp.
  - intros i. unfold activos_esperados. cbn [libros save].
    change (prestamos_activos_de i b
            = match JsMap.get i (JsMap.set (NextIds.libro (nextIds b))
                      (Libro.new (NextIds.libro (nextIds b)) titulo autor año) (libros b))
              with Some l => if Libro.isDisponible l then 0 else 1 | None => 0 end)%nat.
    rewrite Hc. unfold activos_esperados.
    destruct (Z.eq_dec i (NextIds.libro (nextIds b))) as [->|Hne].
    + rewrite get_set_same, (bajo_contador_fresh _ _ Hbl). reflexivity.
    + now rewrite get_set_other.
Qed.

Lemma coherente_crearUsuario nombre b :
  coherente b -> coherente (snd (crearUsuario nombre b)).
Proof.
  intros (Hbf & Hbl & Hbp & Hc).
  split; [exact (bien_formada_ejecutar (CrearUsuario nombre) b Hbf)|].
  cbn. auto.
Qed.

Lemma coherente_prestarLibro ahora libroId usuarioId b :
  coherente b -> coherente (snd (prestarLibro ahora libroId usuarioId b)).
Proof.
  intros Hco. pose proof Hco as (Hbf & Hbl & Hbp & Hc).
  split; [exact (bien_formada_ejecutar (PrestarLibro ahora libroId usuarioId) b Hbf)|].
  unfold prestarLibro, prestarLibro_aux.
  destruct (JsMap.get libroId (libros b)) as [l|] eqn:El; [|exact (proj2 Hco)].
  destruct (JsMap.get usuarioId (usuarios b)) as [u|]; [|exact (proj2 Hco)].
  destruct (Libro.isDisponible l) eqn:D; cbn [negb]; [|exact (proj2 Hco)].
  rewrite (LibroFacts.prestar_disponible l D). cbn [fst snd].
  set (l1 := Libro.mk _ _ _ _ false).
  set (p := Prestamo.mk _ _ _ _ None).
  split; [|split].
  - cbn. apply (bajo_contador_set (NextIds.libro (nextIds b))); auto; [lia|].
    apply Hbl. exact (get_In_keys _ _ _ El).
  - cbn. apply (bajo_contador_set (NextIds.prestamo (nextIds b))); auto; lia.
  - intros i. rewrite prestamos_activos_de_count. unfold activos_esperados.
    cbn [prestamos libros save].
    pose proof (count_set
      (fun q => Prestamo.isActivo q && (Prestamo.libroId q =? i))
      (NextIds.prestamo (nextIds b)) p (prestamos b)) as Hn.
    rewrite (bajo_contador_fresh _ _ Hbp) in Hn. cbn in Hn.
    specialize (Hc i). rewrite prestamos_activos_de_count in Hc.
    unfold activos_esperados in Hc.
    destruct (Z.eq_dec i libroId) as [->|Hne].
    + rewrite get_set_same. rewrite El, D in Hc. rewrite Z.eqb_refl in Hn.
      subst l1. cbn [Libro.isDisponible Libro.disponible]. lia.
    + rewrite get_set_other by assumption.
      assert ((libroId =? i) = false) as Hf by (apply Z.eqb_neq; congruence).
      rewrite Hf in Hn. lia.
Qed.

Lemma coherente_devolverLibro ahora prestamoId b :
  truthy ahora = true ->
  coherente b -> coherente (snd (devolverLibro ahora prestamoId b)).
Proof.
  intros Hah Hco. pose proof Hco as (Hbf & Hbl & Hbp & Hc).
  split; [exact (bien_formada_ejecutar (DevolverLibro ahora prestamoId) b Hbf)|].
  unfold devolverLibro, devolverLibro_aux.
  destruct (JsMap.get prestamoId (prestamos b)) as [p|] eqn:Ep; [|exact (proj2 Hco)].
  destruct (Prestamo.isActivo p) eqn:A; cbn [negb]; [|exact (proj2 Hco)].
  destruct (JsMap.get (Prestamo.libroId p) (libros b)) as [l|] eqn:El;
    [|exact (proj2 Hco)].
  rewrite (PrestamoFacts.devolver_activo ahora p A).
  pose proof (LibroFacts.devolver_disponible l) as Hd.
  destruct (Libro.devolver l) as [r2 l1]. cbn [fst snd] in *. subst l1.
  set (p1 := Prestamo.mk _ _ _ _ (Some ahora)).
  set (l1 := Libro.mk _ _ _ _ true).
  split; [|split].
  - cbn. apply (bajo_contador_set (NextIds.libro (nextIds b))); auto; [lia|].
    apply Hbl. exact (get_In_keys _ _ _ El).
  - cbn. apply (bajo_contador_set (NextIds.prestamo (nextIds b))); auto; [lia|].
    apply Hbp. exact (get_In_keys _ _ _ Ep).
  - intros i. rewrite prestamos_activos_de_count. unfold activos_esperados.
    cbn [prestamos libros save].
    pose proof (count_set
      (fun q => Prestamo.isActivo q && (Prestamo.libroId q =? i))
      prestamoId p1 (prestamos b)) as Hn.
    rewrite Ep, A in Hn.
    assert (Prestamo.isActivo p1 = false) as A1.
    { subst p1. rewrite PrestamoFacts.isActivo_devuelto, Hah. reflexivity. }
    rewrite A1 in Hn. cbn [andb] in Hn.
    specialize (Hc i). rewrite prestamos_activos_de_count in Hc.
    unfold activos_esperados in Hc.
    destruct (Z.eq_dec i (Prestamo.libroId p)) as [->|Hne].
    + rewrite get_set_same. rewrite El in Hc. rewrite Z.eqb_refl in Hn.
      subst l1. cbn [Libro.isDisponible Libro.disponible].
      destruct (Libro.isDisponible l); lia.
    + rewrite get_set_other by assumption.
      assert ((Prestamo.libroId p =? i) = false) as Hf by (apply Z.eqb_neq; congruence).
      rewrite Hf in Hn. lia.
Qed.

Lemma coherente_ejecutar c b :
  reloj_valido c = true -> coherente b -> coherente (ejecutar c b).
Proof.
  destruct c; cbn [reloj_valido ejecutar]; intros Hr Hco.
  - now apply coherente_crearLibro.
  - now apply coherente_crearUsuario.
  - now apply coherente_prestarLibro.
  - now apply coherente_devolverLibro.
Qed.

Lemma alcanzable_coherente b : alcanzable b -> coherente b.
Proof.
  induction 1 as [|c b Hb IH Hr]; [apply coherente_new | now apply coherente_ejecutar].
Qed.

(** C1: in every state reached from the empty catalog by calls of
    [crearLibro], [crearUsuario], [prestarLibro] and [devolverLibro], no book
    identifier is referenced by more than one active loan, and a listed book
    is unavailable exactly when one active loan references its
    identifier. *)
Theorem prestamo_unico (b : t) :
  alcanzable b ->
  (forall libroId, prestamos_activos_de libroId b <= 1)%nat /\
  (forall l, In l (listarLibros b) ->
             (Libro.isDisponible l = false <-> prestamos_activos_de (Libro.id l) b = 1%nat)).
Proof.
  intros Hal. apply alcanzable_coherente in Hal as (Hbf & _ & _ & Hc). split.
  - intros i. rewrite Hc. unfold activos_esperados.
    destruct (JsMap.get i (libros b)) as [l|]; [destruct (Libro.isDisponible l)|]; lia.
  - intros l Hin. rewrite Hc. unfold activos_esperados.
    rewrite (listado_get b l Hbf Hin).
    destruct (Libro.isDisponible l); split; intros; congruence.
Qed.

Lemma prestamo_unico_witness :
  let b := ejecutar (PrestarLibro "2024-05-01T10:00:00.000Z" 1 1)
             (ejecutar (CrearUsuario "Ana")
                (ejecutar (CrearLibro "El Aleph" "Borges" 1949) (new None))) in
  (forall libroId, prestamos_activos_de libroId b <= 1)%nat /\
  (forall l, In l (listarLibros b) ->
             (Libro.isDisponible l = false <-> prestamos_activos_de (Libro.id l) b = 1%nat)).
Proof.
  cbv zeta. apply prestamo_unico.
  apply alc_paso; [|reflexivity]. apply alc_paso; [|reflexivity].
  apply alc_paso; [|reflexivity]. apply alc_inicial.
Defined.

End Coherencia.

(** ** Saving and loading *)

Module Persistencia.

Import JsMapFacts InvFacts Biblioteca Inv BienFormada.

Section UnaColeccion.
Context {V J : Type} (idf : V -> Z) (jid : J -> Z).
Context (toJSON : V -> J) (fromJSON : J -> V).
Hypothesis from_to : forall v, fromJSON (toJSON v) = v.
Hypothesis jid_to : forall v, jid (toJSON v) = idf v.

(** Loading the serialized values of [m2] on top of [m1] appends [m2]. *)
Lemma cargar_sufijo (m2 m1 : JsMap.t V) :
  bien_indexado idf (m1 ++ m2) ->
  cargar jid fromJSON (map toJSON (JsMap.values m2)) m1 = m1 ++ m2.
Proof.
  revert m1. induction m2 as [|[k v] r IH]; intros m1 Hbi.
  - now rewrite app_nil_r.
  - cbn. rewrite from_to, jid_to.
    destruct Hbi as [Hnd Hid].
    assert (idf v = k) as -> by (apply Hid, in_elt).
    assert (JsMap.get k m1 = None) as Hk.
    { apply get_None_keys. intros Hin.
      unfold JsMap.keys in Hnd. rewrite map_app in Hnd. cbn in Hnd.
      apply NoDup_remove_2 in Hnd. apply Hnd, in_or_app. now left. }
    rewrite (set_new k v m1 Hk).
    change (cargar jid fromJSON (map toJSON (JsMap.values r)) (m1 ++ [(k, v)])
            = m1 ++ (k, v) :: r).
    rewrite IH.
    + now rewrite <- app_assoc.
    + rewrite <- app_assoc. now split.
Qed.

Lemma cargar_todo (m : JsMap.t V) :
  bien_indexado idf m ->
  cargar jid fromJSON (map toJSON (JsMap.values m)) JsMap.empty = m.
Proof. intros H. now rewrite cargar_sufijo. Qed.

End UnaColeccion.

(** Saving and loading a well-keyed state gives the state back. *)
Lemma guardar_y_cargar_bien_formada (b : t) :
  bien_formada b ->
  libros (new (storage (save b))) = libros b /\
  usuarios (new (storage (save b))) = usuarios b /\
  prestamos (new (storage (save b))) = prestamos b /\
  nextIds (new (storage (save b))) = nextIds b.
Proof.
  intros (Hl & Hu & Hp). unfold new, load. cbn.
  repeat split.
  - apply (cargar_todo Libro.id Libro.jid Libro.toJSON Libro.fromJSON);
      [apply LibroFacts.libro_fromJSON_toJSON | reflexivity | assumption].
  - apply (cargar_todo Usuario.id Usuario.jid Usuario.toJSON Usuario.fromJSON);
      [now intros [] | reflexivity | assumption].
  - apply (cargar_todo Prestamo.id Prestamo.jid Prestamo.toJSON Prestamo.fromJSON);
      [apply PrestamoFacts.prestamo_fromJSON_toJSON | reflexivity | assumption].
Qed.

(** C4: a state of the service, saved through the port and loaded by a new
    service from the same port, comes back with the same three collections
    (every field of every book, user and loan, in the same order) and the
    same three counters. *)
Theorem guardar_y_cargar (b : t) :
  estado b ->
  libros (new (storage (save b))) = libros b /\
  usuarios (new (storage (save b))) = usuarios b /\
  prestamos (new (storage (save b))) = prestamos b /\
  nextIds (new (storage (save b))) = nextIds b.
Proof.
  intros Hest. apply guardar_y_cargar_bien_formada. now apply estado_bien_formada.
Qed.

Lemma guardar_y_cargar_witness :
  let b := ejecutar (DevolverLibro "2024-05-03T10:00:00.000Z" 1)
            (ejecutar (PrestarLibro "2024-05-02T10:00:00.000Z" 2 1)
              (ejecutar (PrestarLibro "2024-05-01T10:00:00.000Z" 1 1)
                (ejecutar (CrearUsuario "Ana")
                  (ejecutar (CrearLibro "Ficciones" "Borges" 1944)
                    (ejecutar (CrearLibro "El Aleph" "Borges" 1949) (new None)))))) in
  libros (new (storage (save b))) = libros b /\
  usuarios (new (storage (save b))) = usuarios b /\
  prestamos (new (storage (save b))) = prestamos b /\
  nextIds (new (storage (save b))) = nextIds b.
Proof.
  cbv zeta. apply guardar_y_cargar. repeat apply est_paso. apply est_new.
Defined.

(** *** What a successful call leaves in the port *)

(** A well-keyed state whose port holds its snapshot is what a new service
    on that port starts as. *)
Lemma new_de_guardado b :
  bien_formada b -> storage b = Some (toDB b) -> new (storage b) = b.
Proof.
  intros Hbf Hs.
  assert (storage (new (storage b)) = storage b) as H5.
  { unfold new, load. cbn. now destruct (storage b). }
  assert (libros (new (storage b)) = libros b /\
          usuarios (new (storage b)) = usuarios b /\
          prestamos (new (storage b)) = prestamos b /\
          nextIds (new (storage b)) = nextIds b) as (H1 & H2 & H3 & H4).
  { rewrite Hs. now apply (guardar_y_cargar_bien_formada b). }
  destruct (new (storage b)) as [l u p n s], b as [l' u' p' n' s'].
  cbn in *. now subst.
Qed.

(** C5: after every call that reports success ([crearLibro], [crearUsuario],
    [prestarLibro] and [devolverLibro] with [ok = true]) the port holds a
    full snapshot of the state the call leaves behind: every listed book with
    its five fields, every listed user with its two, every listed loan with
    its five, each array in listing order, and the three counters. When the
    call was made on a service (constructed from any port content, after any
    calls), a new service constructed on that port is the state the call
    left, port included. *)
Theorem guardado_completo (c : Llamada) (b : t) :
  exito c b = true ->
  let b' := ejecutar c b in
  storage b'
  = Some (mkDB
      (Some (map (fun l => Libro.mkJson (Libro.id l) (Libro.titulo l) (Libro.autor l)
                                        (Libro.año l) (Some (Libro.isDisponible l)))
                 (listarLibros b')))
      (Some (map (fun u => Usuario.mkJson (Usuario.id u) (Usuario.nombre u))
                 (listarUsuarios b')))
      (Some (map (fun p => Prestamo.mkJson (Prestamo.id p) (Prestamo.libroId p)
                             (Prestamo.usuarioId p) (Prestamo.fechaPrestamo p)
                             (Prestamo.fechaDevolucion p))
                 (listarPrestamos false b')))
      (Some (nextIds b'))) /\
  (estado b -> new (storage b') = b').
Proof.
  intros Hex b'. subst b'.
  pose proof (BibliotecaFacts.guardado_tras_exito c b Hex) as Hs.
  split; [exact Hs|].
  intros Hest. apply new_de_guardado; [|exact Hs].
  apply estado_bien_formada. now apply est_paso.
Qed.

Lemma guardado_completo_witness :
  let b := ejecutar (CrearUsuario "Ana")
             (ejecutar (CrearLibro "El Aleph" "Borges" 1949) (new None)) in
  let b' := ejecutar (PrestarLibro "2024-05-01T10:00:00.000Z" 1 1) b in
  storage b'
  = Some (mkDB (Some [Libro.mkJson 1 "El Aleph" "Borges" 1949 (Some false)])
               (Some [Usuario.mkJson 1 "Ana"])
               (Some [Prestamo.mkJson 1 1 1 "2024-05-01T10:00:00.000Z" None])
               (Some (NextIds.mk 2 2 2))) /\
  new (storage b') = b'.
Proof.
  cbv zeta.
  destruct (guardado_completo (PrestarLibro "2024-05-01T10:00:00.000Z" 1 1)
    (ejecutar (CrearUsuario "Ana")
       (ejecutar (CrearLibro "El Aleph" "Borges" 1949) (new None))) eq_refl)
    as [H1 H2].
  split; [rewrite H1; reflexivity|].
  apply H2. repeat apply est_paso. apply est_new.
Defined.

(** *** A snapshot without counters *)

Lemma has_set {V : Type} k k' (v : V) m :
  JsMap.has k' (JsMap.set k v m) = (k' =? k) || JsMap.has k' m.
Proof.
  rewrite !has_get. destruct (Z.eqb_spec k' k) as [->|Hne].
  - now rewrite get_set_same.
  - now rewrite get_set_other.
Qed.

Lemma load_libros_cons j arr m :
  load_libros (j :: arr) m
  = load_libros arr (JsMap.set (Libro.jid j) (Libro.fromJSON j) m).
Proof. reflexivity. Qed.

Lemma has_load_libros_mono arr m k :
  JsMap.has k m = true -> JsMap.has k (load_libros arr m) = true.
Proof.
  revert m. induction arr as [|j arr IH]; intros m H; [exact H|].
  rewrite load_libros_cons. apply IH. rewrite has_set, H. apply orb_true_r.
Qed.

Lemma has_load_libros arr m j :
  In j arr -> JsMap.has (Libro.jid j) (load_libros arr m) = true.
Proof.
  revert m. induction arr as [|j' arr IH]; intros m Hin; [destruct Hin|].
  rewrite load_libros_cons. destruct Hin as [->|Hin].
  - apply has_load_libros_mono. rewrite has_set, Z.eqb_refl. reflexivity.
  - now apply IH.
Qed.

Lemma find_app {A : Type} (f : A -> bool) (xs ys : list A) :
  find f (xs ++ ys) = match find f xs with Some x => Some x | None => find f ys end.
Proof.
  induction xs as [|x xs IH]; cbn; [reflexivity|]. now destruct (f x).
Qed.

(** After the loop of [load], a key holds what the last array element with
    that identifier says, or what it held before when there is none. *)
Lemma get_cargar {V J : Type} (jid : J -> Z) (fromJSON : J -> V) arr m k :
  JsMap.get k (cargar jid fromJSON arr m)
  = match find (fun j => jid j =? k) (rev arr) with
    | Some j => Some (fromJSON j)
    | None => JsMap.get k m
    end.
Proof.
  revert m. induction arr as [|j arr IH]; intros m; [reflexivity|].
  change (cargar jid fromJSON (j :: arr) m)
    with (cargar jid fromJSON arr (JsMap.set (jid j) (fromJSON j) m)).
  rewrite IH. cbn [rev]. rewrite find_app.
  destruct (find (fun j0 => jid j0 =? k) (rev arr)); [reflexivity|].
  cbn [find]. destruct (Z.eqb_spec (jid j) k) as [<-|Hne].
  - apply get_set_same.
  - apply get_set_other. congruence.
Qed.

(** Every element of the array leaves its identifier in the collection. *)
Lemma has_cargar {V J : Type} (jid : J -> Z) (fromJSON : J -> V) arr m j :
  In j arr -> JsMap.has (jid j) (cargar jid fromJSON arr m) = true.
Proof.
  intros Hin. rewrite has_get, get_cargar.
  destruct (find (fun j0 => jid j0 =? jid j) (rev arr)) eqn:E; [reflexivity|].
  pose proof (find_none _ _ E j) as Hf. cbn beta in Hf.
  rewrite Z.eqb_refl in Hf. apply in_rev in Hin. specialize (Hf Hin). discriminate.
Qed.

(** C10: when the snapshot handed to [load] has no [nextIds], the three
    collections are filled from it all the same (every identifier listed in
    an array is a key of its collection, and under each key sits the entity
    read from the last array element with that identifier) while the three
    counters stay at 1; the next [crearLibro] returns a book with identifier
    1, which takes the place of a loaded book that had identifier 1: the
    catalog has as many books as before and the only book with identifier 1
    it lists is the new one. *)
Theorem load_sin_nextIds (data : DBShape) (titulo autor : string) (año : Z) :
  db_nextIds data = None ->
  let b := new (Some data) in
  let l := fst (crearLibro titulo autor año b) in
  let b' := snd (crearLibro titulo autor año b) in
  nextIds b = NextIds.mk 1 1 1 /\
  (forall k, JsMap.get k (libros b)
     = match db_libros data with
       | Some arr => option_map Libro.fromJSON (find (fun j => Libro.jid j =? k) (rev arr))
       | None => None
       end) /\
  (forall k, JsMap.get k (usuarios b)
     = match db_usuarios data with
       | Some arr => option_map Usuario.fromJSON (find (fun j => Usuario.jid j =? k) (rev arr))
       | None => None
       end) /\
  (forall k, JsMap.get k (prestamos b)
     = match db_prestamos data with
       | Some arr =>
           option_map Prestamo.fromJSON (find (fun j => Prestamo.jid j =? k) (rev arr))
       | None => None
       end) /\
  (forall arr j, db_libros data = Some arr -> In j arr ->
                 JsMap.has (Libro.jid j) (libros b) = true) /\
  (forall arr j, db_usuarios data = Some arr -> In j arr ->
                 JsMap.has (Usuario.jid j) (usuarios b) = true) /\
  (forall arr j, db_prestamos data = Some arr -> In j arr ->
                 JsMap.has (Prestamo.jid j) (prestamos b) = true) /\
  l = Libro.new 1 titulo autor año /\
  JsMap.get 1 (libros b') = Some l /\
  (JsMap.has 1 (libros b) = true -> JsMap.size (libros b') = JsMap.size (libros b)) /\
  (forall l', In l' (listarLibros b') -> Libro.id l' = 1 -> l' = l).
Proof.
  intros Hn b l b'.
  assert (nextIds b = NextIds.mk 1 1 1) as Hids.
  { subst b. unfold new, load. cbn. now rewrite Hn. }
  assert (libros b = match db_libros data with
                     | Some arr => cargar Libro.jid Libro.fromJSON arr JsMap.empty
                     | None => JsMap.empty
                     end) as Hlib by reflexivity.
  assert (usuarios b = match db_usuarios data with
                       | Some arr => cargar Usuario.jid Usuario.fromJSON arr JsMap.empty
                       | None => JsMap.empty
                       end) as Husu by reflexivity.
  assert (prestamos b = match db_prestamos data with
                        | Some arr => cargar Prestamo.jid Prestamo.fromJSON arr JsMap.empty
                        | None => JsMap.empty
                        end) as Hpre by reflexivity.
  assert (bien_formada b) as Hbf by apply bien_formada_new.
  split; [exact Hids|].
  split.
  { intros k. rewrite Hlib. destruct (db_libros data) as [arr|]; [|reflexivity].
    rewrite get_cargar. now destruct (find _ (rev arr)). }
  split.
  { intros k. rewrite Husu. destruct (db_usuarios data) as [arr|]; [|reflexivity].
    rewrite get_cargar. now destruct (find _ (rev arr)). }
  split.
  { intros k. rewrite Hpre. destruct (db_prestamos data) as [arr|]; [|reflexivity].
    rewrite get_cargar. now destruct (find _ (rev arr)). }
  split.
  { intros arr j Harr Hin. rewrite Hlib, Harr. now apply has_cargar. }
  split.
  { intros arr j Harr Hin. rewrite Husu, Harr. now apply has_cargar. }
  split.
  { intros arr j Harr Hin. rewrite Hpre, Harr. now apply has_cargar. }
  clear Hlib Husu Hpre. clearbody b. subst l b'. unfold crearLibro. cbn [fst snd].
  rewrite Hids. cbn [NextIds.libro libros save].
  split; [reflexivity|]. split; [apply get_set_same|]. split.
  - intros Hhas. unfold JsMap.size. rewrite <- !(length_map fst).
    change (List.length (JsMap.keys (JsMap.set 1 (Libro.new 1 titulo autor año) (libros b)))
            = List.length (JsMap.keys (libros b))).
    rewrite keys_set_old; [reflexivity|].
    rewrite has_get in Hhas. destruct (JsMap.get 1 (libros b)); congruence.
  - intros l' Hin Hid.
    pose proof (valor_get Libro.id _ l'
      (bien_indexado_set Libro.id 1 (Libro.new 1 titulo autor año) (libros b)
         (proj1 Hbf) eq_refl) Hin) as H.
    rewrite Hid, get_set_same in H. congruence.
Qed.

Lemma load_sin_nextIds_witness :
  let data := mkDB (Some [Libro.mkJson 1 "El Aleph" "Borges" 1949 (Some false);
                          Libro.mkJson 2 "Ficciones" "Borges" 1944 (Some true)])
                   (Some [Usuario.mkJson 1 "Ana"])
                   (Some [Prestamo.mkJson 1 1 1 "2024-05-01T10:00:00.000Z" None])
                   None in
  let b := new (Some data) in
  let b' := snd (crearLibro "Rayuela" "Cortazar" 1963 b) in
  nextIds b = NextIds.mk 1 1 1 /\
  JsMap.get 1 (libros b) = Some (Libro.mk 1 "El Aleph" "Borges" 1949 false) /\
  JsMap.get 1 (usuarios b) = Some (Usuario.mk 1 "Ana") /\
  JsMap.get 1 (prestamos b)
  = Some (Prestamo.mk 1 1 1 "2024-05-01T10:00:00.000Z" None) /\
  JsMap.has 2 (libros b) = true /\
  JsMap.get 1 (libros b') = Some (Libro.mk 1 "Rayuela" "Cortazar" 1963 true) /\
  JsMap.size (libros b') = 2%nat.
Proof.
  cbv zeta.
  pose proof (load_sin_nextIds
    (mkDB (Some [Libro.mkJson 1 "El Aleph" "Borges" 1949 (Some false);
                 Libro.mkJson 2 "Ficciones" "Borges" 1944 (Some true)])
          (Some [Usuario.mkJson 1 "Ana"])
          (Some [Prestamo.mkJson 1 1 1 "2024-05-01T10:00:00.000Z" None])
          None)
    "Rayuela" "Cortazar" 1963 eq_refl)
    as (H1 & Hl & Hu & Hp & Hhl & _ & _ & H6 & H7 & H8 & _).
  cbv zeta in *.
  split; [exact H1|]. split; [rewrite Hl; reflexivity|].
  split; [rewrite Hu; reflexivity|]. split; [rewrite Hp; reflexivity|].
  split; [apply (Hhl _ (Libro.mkJson 2 "Ficciones" "Borges" 1944 (Some true)) eq_refl);
          right; now left|].
  split; [rewrite H7, H6; reflexivity|].
  rewrite H8; [|apply (Hhl _ (Libro.mkJson 1 "El Aleph" "Borges" 1949 (Some false)) eq_refl);
                 now left].
  reflexivity.
Defined.

End Persistencia.

(** ** The end-to-end scenario of the specification *)

Module EscenarioFacts.

Import Biblioteca Escenario.

Example libro_creado :
  fst (crearLibro "B1" "Autor" 2001 b0) = Libro.mk 1 "B1" "Autor" 2001 true.
Proof. reflexivity. Qed.

Example usuario_creado : fst (crearUsuario "P1" b1) = Usuario.mk 1 "P1".
Proof. reflexivity. Qed.

Example primer_prestamo :
  fst (prestarLibro t1 1 1 b2)
  = mkRes true "Préstamo registrado" (Some (Prestamo.mk 1 1 1 t1 None)) /\
  JsMap.get 1 (libros b3) = Some (Libro.mk 1 "B1" "Autor" 2001 false).
Proof. split; reflexivity. Qed.

Example segundo_prestamo :
  prestarLibro t1 1 1 b3 = (mkRes false "Libro no disponible" None, b3).
Proof. reflexivity. Qed.

Example primera_devolucion :
  fst (devolverLibro t2 1 b4) = mkRes true "Libro devuelto" None /\
  JsMap.get 1 (libros b5) = Some (Libro.mk 1 "B1" "Autor" 2001 true) /\
  listarPrestamos true b5 = [].
Proof. repeat split; reflexivity. Qed.

Example segunda_devolucion :
  devolverLibro t2 1 b5 = (mkRes false "Ya devuelto" None, b5).
Proof. reflexivity. Qed.

Example estadisticas_finales : estadisticas b6 = mkEst 1 1 0.
Proof. reflexivity. Qed.

(** The order of the checks, on states where more than one would fail. *)
Example libro_antes_que_usuario :
  prestarLibro t1 9 9 b0 = (mkRes false "Libro no encontrado" None, b0).
Proof. reflexivity. Qed.

Example usuario_antes_que_disponibilidad :
  prestarLibro t1 1 9 b3 = (mkRes false "Usuario no encontrado" None, b3).
Proof. reflexivity. Qed.

Example prestamo_desconocido :
  devolverLibro t2 9 b3 = (mkRes false "Préstamo no encontrado" None, b3).
Proof. reflexivity. Qed.

Example libro_inexistente :
  devolverLibro t2 1 huerfano = (mkRes false "Libro inexistente" None, huerfano).
Proof. reflexivity. Qed.

End EscenarioFacts.

(** * Further properties *)

(** ** The entities on their own *)

Module Entidades.

Import Orden.

(** X1: [Libro.prestar] returns whether the book was available; afterwards
    the book is unavailable with its identifier, title, author and year
    untouched, and a second call returns false and changes nothing. *)
Theorem libro_prestar_repetido (l : Libro.t) :
  fst (Libro.prestar l) = Libro.isDisponible l /\
  snd (Libro.prestar l)
  = Libro.mk (Libro.id l) (Libro.titulo l) (Libro.autor l) (Libro.año l) false /\
  Libro.prestar (snd (Libro.prestar l)) = (false, snd (Libro.prestar l)).
Proof. destruct l as [i t a y [|]]; repeat split. Qed.

(** X2: [Libro.devolver] returns whether the book was on loan; afterwards
    the book is available with its other fields untouched, and a second call
    returns false and changes nothing. *)
Theorem libro_devolver_repetido (l : Libro.t) :
  fst (Libro.devolver l) = negb (Libro.isDisponible l) /\
  snd (Libro.devolver l)
  = Libro.mk (Libro.id l) (Libro.titulo l) (Libro.autor l) (Libro.año l) true /\
  Libro.devolver (snd (Libro.devolver l)) = (false, snd (Libro.devolver l)).
Proof. destruct l as [i t a y [|]]; repeat split. Qed.

(** X3: lending an available book and returning it gives the book back as
    it was, and both calls return true. *)
Theorem libro_prestar_devolver (l : Libro.t) :
  Libro.isDisponible l = true ->
  fst (Libro.prestar l) = true /\
  Libro.devolver (snd (Libro.prestar l)) = (true, l).
Proof. destruct l as [i t a y [|]]; [split; reflexivity | discriminate]. Qed.

Lemma libro_prestar_devolver_witness :
  fst (Libro.prestar (Libro.new 4 "Rayuela" "Cortazar" 1963)) = true /\
  Libro.devolver (snd (Libro.prestar (Libro.new 4 "Rayuela" "Cortazar" 1963)))
  = (true, Libro.new 4 "Rayuela" "Cortazar" 1963).
Proof. apply libro_prestar_devolver. reflexivity. Defined.

(** X4: a book read by [Libro.fromJSON] is on loan exactly when the object
    carries the boolean false as [disponible]; an absent or non-boolean flag
    gives an available book. Writing the book out again changes nothing but
    that flag, made explicit, and reading what [toJSON] wrote gives the book
    back. *)
Theorem libro_json (l : Libro.t) (obj : Libro.json) :
  Libro.fromJSON (Libro.toJSON l) = l /\
  Libro.isDisponible (Libro.fromJSON obj)
  = match Libro.jdisponible obj with Some false => false | _ => true end /\
  Libro.toJSON (Libro.fromJSON obj)
  = Libro.mkJson (Libro.jid obj) (Libro.jtitulo obj) (Libro.jautor obj) (Libro.jaño obj)
                 (Some (Libro.isDisponible (Libro.fromJSON obj))).
Proof.
  split; [destruct l as [i t a y [|]]; reflexivity|].
  destruct obj as [i t a y [[|]|]]; split; reflexivity.
Qed.

(** X5: [Usuario] and [Prestamo] survive [toJSON] followed by [fromJSON] and
    the other way round, field by field; a loan read from an object is active
    exactly when the object has no return date or the empty one. *)
Theorem usuario_prestamo_json
    (u : Usuario.t) (uo : Usuario.json) (p : Prestamo.t) (po : Prestamo.json) :
  Usuario.fromJSON (Usuario.toJSON u) = u /\
  Usuario.toJSON (Usuario.fromJSON uo) = uo /\
  Prestamo.fromJSON (Prestamo.toJSON p) = p /\
  Prestamo.toJSON (Prestamo.fromJSON po) = po /\
  Prestamo.isActivo (Prestamo.fromJSON po)
  = match Prestamo.jfechaDevolucion po with
    | None => true
    | Some f => negb (truthy f)
    end.
Proof.
  destruct u, uo, p, po as [i l us fp [f|]]; repeat split.
Qed.

Lemma devolver_todas_inactivo fechas p :
  Prestamo.isActivo p = false ->
  devolver_todas fechas p = (map (fun _ => false) fechas, p).
Proof.
  intros H. induction fechas as [|f fs IH]; [reflexivity|].
  cbn [devolver_todas map]. unfold Prestamo.devolver at 1. rewrite H. cbn [negb].
  now rewrite IH.
Qed.

Lemma devolver_todas_cons f fs p :
  snd (devolver_todas (f :: fs) p) = snd (devolver_todas fs (snd (Prestamo.devolver f p))).
Proof.
  cbn [devolver_todas]. destruct (Prestamo.devolver f p) as [r p1]. cbn [snd].
  now destruct (devolver_todas fs p1).
Qed.

(** X6: whatever dates [Prestamo.devolver] is called with, and however
    often, the loan keeps its identifier, its book, its user and its loan
    date; and on a loan that is no longer active every call returns false and
    the loan, return date included, stays exactly as it is. *)
Theorem prestamo_devolver_todas (fechas : list string) (p : Prestamo.t) :
  (let q := snd (devolver_todas fechas p) in
   Prestamo.id q = Prestamo.id p /\
   Prestamo.libroId q = Prestamo.libroId p /\
   Prestamo.usuarioId q = Prestamo.usuarioId p /\
   Prestamo.fechaPrestamo q = Prestamo.fechaPrestamo p) /\
  (Prestamo.isActivo p = false ->
   devolver_todas fechas p = (map (fun _ => false) fechas, p)).
Proof.
  split; [|apply devolver_todas_inactivo].
  revert p. induction fechas as [|f fs IH]; intros p; [repeat split|].
  rewrite devolver_todas_cons. cbv zeta.
  destruct (IH (snd (Prestamo.devolver f p))) as (H1 & H2 & H3 & H4).
  rewrite H1, H2, H3, H4. unfold Prestamo.devolver.
  destruct (negb (Prestamo.isActivo p)); repeat split.
Qed.

End Entidades.

(** ** More on the map *)

Module JsMapMas.

Import JsMap JsMapFacts.

Section WithValue.
Context {V : Type}.
Implicit Types (m : JsMap.t V) (k : Z) (v : V).

Lemma set_set k v v' m : set k v (set k v' m) = set k v m.
Proof.
  induction m as [|[k0 v0] r IH]; cbn.
  - now rewrite Z.eqb_refl.
  - destruct (k =? k0) eqn:E; cbn.
    + now rewrite Z.eqb_refl.
    + now rewrite E, IH.
Qed.

Lemma set_get_same k v m : get k m = Some v -> set k v m = m.
Proof.
  induction m as [|[k0 v0] r IH]; cbn; [discriminate|].
  destruct (k =? k0) eqn:E.
  - apply Z.eqb_eq in E. intros [= ->]. now subst.
  - intros H. now rewrite IH.
Qed.

Lemma size_set k v m :
  size (set k v m)
  = (size m + match get k m with Some _ => 0 | None => 1 end)%nat.
Proof.
  unfold size. induction m as [|[k0 v0] r IH]; cbn; [reflexivity|].
  destruct (k =? k0); cbn; lia.
Qed.

Lemma values_set_new k v m : get k m = None -> values (set k v m) = values m ++ [v].
Proof. intros H. rewrite set_new by assumption. unfold values. now rewrite map_app. Qed.

Lemma keys_set_incl k v m : incl (keys m) (keys (set k v m)).
Proof. intros k' H. apply In_keys_set. now right. Qed.

Lemma has_keys k m : has k m = true <-> In k (keys m).
Proof.
  rewrite has_get. split.
  - intros H. destruct (in_dec Z.eq_dec k (keys m)) as [Hin|Hin]; [assumption|].
    apply get_None_keys in Hin. now rewrite Hin in H.
  - intros Hin. destruct (get k m) eqn:E; [reflexivity|].
    apply get_None_keys in E. contradiction.
Qed.

Lemma keys_values (idf : V -> Z) m :
  Inv.bien_indexado idf m -> map idf (values m) = keys m.
Proof.
  intros [_ Hid]. unfold values, keys. rewrite map_map.
  apply map_ext_in. intros [k v] Hin. cbn. now apply Hid.
Qed.

(** The value under [k] is found by [get] among the listed values. *)
Lemma get_In_values k v m : get k m = Some v -> In v (values m).
Proof.
  intros H. apply get_Some_In in H. unfold values.
  change v with (snd (k, v)). now apply in_map.
Qed.

(** An active value in the map is counted. *)
Lemma count_pos (f : V -> bool) k v m :
  get k m = Some v -> f v = true -> (1 <= count f m)%nat.
Proof.
  intros Hg Hf. pose proof (count_set f k v m) as H. rewrite Hg, Hf in H.
  rewrite (set_get_same k v m Hg) in H.
  unfold count in *. apply get_In_values in Hg.
  destruct (filter f (map snd m)) as [|x xs] eqn:E; cbn; [|lia].
  exfalso. assert (In v (filter f (map snd m))) as Hin
    by (apply filter_In; split; assumption).
  now rewrite E in Hin.
Qed.

End WithValue.

End JsMapMas.

(** ** Identifiers in creation order *)

Module Numeracion.

Import JsMapFacts JsMapMas InvFacts Biblioteca Inv BienFormada Orden.

Lemma consecutivos_1 : consecutivos 1 = [].
Proof. reflexivity. Qed.

Lemma consecutivos_succ n : 1 <= n -> consecutivos (n + 1) = consecutivos n ++ [n].
Proof.
  intros Hn. unfold consecutivos.
  replace (Z.to_nat (n + 1 - 1)) with (S (Z.to_nat (n - 1))) by lia.
  rewrite seq_S, map_app. cbn [map]. f_equal. f_equal. lia.
Qed.

Lemma In_consecutivos k n : In k (consecutivos n) <-> 1 <= k < n.
Proof.
  unfold consecutivos. rewrite in_map_iff. split.
  - intros (x & <- & Hin). apply in_seq in Hin. lia.
  - intros Hk. exists (Z.to_nat k). split; [lia|]. apply in_seq. lia.
Qed.

Section UnaColeccion.
Context {V : Type}.
Implicit Types (m : JsMap.t V) (n k : Z) (v : V).

Lemma consecutivos_libre n m : JsMap.keys m = consecutivos n -> JsMap.get n m = None.
Proof.
  intros H. apply get_None_keys. rewrite H, In_consecutivos. lia.
Qed.

Lemma consecutivos_nuevo n v m :
  1 <= n -> JsMap.keys m = consecutivos n ->
  JsMap.keys (JsMap.set n v m) = consecutivos (n + 1).
Proof.
  intros Hn H. rewrite keys_set_new by now apply consecutivos_libre.
  now rewrite consecutivos_succ, H.
Qed.

Lemma consecutivos_viejo n k v v0 m :
  JsMap.get k m = Some v0 -> JsMap.keys m = consecutivos n ->
  JsMap.keys (JsMap.set k v m) = consecutivos n.
Proof. intros Hg H. rewrite keys_set_old by congruence. exact H. Qed.

End UnaColeccion.

Lemma numerada_new : numerada (new None).
Proof. repeat split; try (cbn; lia); reflexivity. Qed.

Lemma numerada_ejecutar c b : numerada b -> numerada (ejecutar c b).
Proof.
  intros Hn. pose proof Hn as ((Hl1 & Hl) & (Hu1 & Hu) & (Hp1 & Hp)).
  destruct c as [titulo autor año|nombre|ahora libroId usuarioId|ahora prestamoId];
    cbn [ejecutar].
  - unfold numerada, crearLibro, save. cbn.
    split; [split; [lia | now apply consecutivos_nuevo]|]. now split.
  - unfold numerada, crearUsuario, save. cbn. split; [now split|]. split; [|now split].
    split; [lia | now apply consecutivos_nuevo].
  - unfold prestarLibro, prestarLibro_aux.
    destruct (JsMap.get libroId (libros b)) as [l|] eqn:El; [|exact Hn].
    destruct (JsMap.get usuarioId (usuarios b)) as [u|]; [|exact Hn].
    destruct (Libro.isDisponible l) eqn:D; cbn [negb]; [|exact Hn].
    destruct (Libro.prestar l) as [r l1]. unfold numerada, save. cbn.
    split; [split; [lia | now apply (consecutivos_viejo _ _ _ l)]|].
    split; [now split|]. split; [lia | now apply consecutivos_nuevo].
  - unfold devolverLibro, devolverLibro_aux.
    destruct (JsMap.get prestamoId (prestamos b)) as [p|] eqn:Ep; [|exact Hn].
    destruct (Prestamo.isActivo p) eqn:A; cbn [negb]; [|exact Hn].
    destruct (JsMap.get (Prestamo.libroId p) (libros b)) as [l|] eqn:El; [|exact Hn].
    destruct (Prestamo.devolver ahora p) as [r1 p1], (Libro.devolver l) as [r2 l1].
    unfold numerada, save. cbn.
    split; [split; [lia | now apply (consecutivos_viejo _ _ _ l)]|].
    split; [now split|]. split; [lia | now apply (consecutivos_viejo _ _ _ p)].
Qed.

Lemma alcanzable_numerada b : alcanzable b -> numerada b.
Proof.
  induction 1 as [|c b Hb IH Hr]; [apply numerada_new | now apply numerada_ejecutar].
Qed.

Lemma alcanzable_estado b : alcanzable b -> estado b.
Proof. induction 1; [apply est_new | now apply est_paso]. Qed.

End Numeracion.

(** ** Creating books and users *)

Module Altas.

Import JsMapFacts JsMapMas InvFacts Biblioteca Inv BienFormada Orden Numeracion.

(** X7: in every state reached from the empty catalog the books, the users
    and the loans are listed in the order they were created, and their
    identifiers are 1, 2, 3, ... up to the counter, without gap or repeat. *)
Theorem ids_en_orden (b : t) :
  alcanzable b ->
  map Libro.id (listarLibros b) = consecutivos (NextIds.libro (nextIds b)) /\
  map Usuario.id (listarUsuarios b) = consecutivos (NextIds.usuario (nextIds b)) /\
  map Prestamo.id (listarPrestamos false b) = consecutivos (NextIds.prestamo (nextIds b)).
Proof.
  intros Hal. pose proof (alcanzable_numerada b Hal) as ((_ & Hl) & (_ & Hu) & (_ & Hp)).
  apply alcanzable_estado, estado_bien_formada in Hal as (Bl & Bu & Bp).
  unfold listarLibros, listarUsuarios, listarPrestamos.
  rewrite (keys_values Libro.id _ Bl), (keys_values Usuario.id _ Bu),
    (keys_values Prestamo.id _ Bp).
  auto.
Qed.

Lemma ids_en_orden_witness :
  let b := ejecutar (PrestarLibro "2024-05-01T10:00:00.000Z" 2 1)
             (ejecutar (CrearLibro "Ficciones" "Borges" 1944)
               (ejecutar (CrearUsuario "Ana")
                 (ejecutar (CrearLibro "El Aleph" "Borges" 1949) (new None)))) in
  map Libro.id (listarLibros b) = consecutivos (NextIds.libro (nextIds b)) /\
  map Usuario.id (listarUsuarios b) = consecutivos (NextIds.usuario (nextIds b)) /\
  map Prestamo.id (listarPrestamos false b) = consecutivos (NextIds.prestamo (nextIds b)).
Proof.
  cbv zeta. apply ids_en_orden.
  repeat (apply alc_paso; [|reflexivity]). apply alc_inicial.
Defined.

(** X8: in every state of a service, whatever snapshot it started from, no
    two listed books share an identifier, and looking a listed book up by its
    identifier finds that very book; the same holds for users and loans. *)
Theorem ids_unicos (b : t) :
  estado b ->
  (NoDup (map Libro.id (listarLibros b)) /\
   forall l, In l (listarLibros b) -> JsMap.get (Libro.id l) (libros b) = Some l) /\
  (NoDup (map Usuario.id (listarUsuarios b)) /\
   forall u, In u (listarUsuarios b) -> JsMap.get (Usuario.id u) (usuarios b) = Some u) /\
  (NoDup (map Prestamo.id (listarPrestamos false b)) /\
   forall p, In p (listarPrestamos false b) ->
             JsMap.get (Prestamo.id p) (prestamos b) = Some p).
Proof.
  intros Hest. apply estado_bien_formada in Hest as (Bl & Bu & Bp).
  unfold listarLibros, listarUsuarios, listarPrestamos.
  rewrite (keys_values Libro.id _ Bl), (keys_values Usuario.id _ Bu),
    (keys_values Prestamo.id _ Bp).
  repeat split; try (intros x Hin; now apply valor_get).
  - apply Bl.
  - apply Bu.
  - apply Bp.
Qed.

(** A snapshot that lists identifier 1 twice. *)
Lemma ids_unicos_witness :
  let b := ejecutar (CrearLibro "Rayuela" "Cortazar" 1963)
             (new (Some (mkDB (Some [Libro.mkJson 1 "El Aleph" "Borges" 1949 (Some true);
                                     Libro.mkJson 1 "Ficciones" "Borges" 1944 None])
                              None None (Some (NextIds.mk 5 1 1))))) in
  NoDup (map Libro.id (listarLibros b)) /\
  forall l, In l (listarLibros b) -> JsMap.get (Libro.id l) (libros b) = Some l.
Proof.
  cbv zeta. apply ids_unicos. apply est_paso, est_new.
Defined.

(** X9: in a state reached from the empty catalog, [crearLibro] returns an
    available book whose identifier is the book counter and is carried by no
    book listed so far; the book is listed last, after the books already
    there in their old order; users and loans are untouched and only the
    book counter moves, by one. *)
Theorem crearLibro_al_final (titulo autor : string) (año : Z) (b : t) :
  alcanzable b ->
  let l := fst (crearLibro titulo autor año b) in
  let b' := snd (crearLibro titulo autor año b) in
  l = Libro.mk (NextIds.libro (nextIds b)) titulo autor año true /\
  ~ In (Libro.id l) (map Libro.id (listarLibros b)) /\
  listarLibros b' = listarLibros b ++ [l] /\
  usuarios b' = usuarios b /\
  prestamos b' = prestamos b /\
  nextIds b' = NextIds.mk (NextIds.libro (nextIds b) + 1)
                          (NextIds.usuario (nextIds b)) (NextIds.prestamo (nextIds b)).
Proof.
  intros Hal l b'. subst l b'.
  pose proof (alcanzable_numerada b Hal) as ((_ & Hl) & _).
  apply alcanzable_estado, estado_bien_formada in Hal as (Bl & _).
  split; [reflexivity|]. split; [|split; [|repeat split]].
  - unfold listarLibros. rewrite (keys_values Libro.id _ Bl), Hl, In_consecutivos.
    cbn. lia.
  - unfold crearLibro, listarLibros, save. cbn.
    apply values_set_new. now apply consecutivos_libre.
Qed.

Lemma crearLibro_al_final_witness :
  let b := ejecutar (CrearLibro "El Aleph" "Borges" 1949) (new None) in
  let l := fst (crearLibro "Ficciones" "Borges" 1944 b) in
  let b' := snd (crearLibro "Ficciones" "Borges" 1944 b) in
  l = Libro.mk 2 "Ficciones" "Borges" 1944 true /\
  listarLibros b' = listarLibros b ++ [l].
Proof.
  cbv zeta.
  pose proof (crearLibro_al_final "Ficciones" "Borges" 1944
    (ejecutar (CrearLibro "El Aleph" "Borges" 1949) (new None))
    (alc_paso (CrearLibro "El Aleph" "Borges" 1949) (new None) alc_inicial eq_refl))
    as (H1 & _ & H3 & _).
  split; [exact H1 | exact H3].
Defined.

(** X10: in a state reached from the empty catalog, [crearUsuario] returns
    a user whose identifier is the user counter and is carried by no user
    listed so far; the user is listed last; books and loans are untouched and
    only the user counter moves, by one. *)
Theorem crearUsuario_al_final (nombre : string) (b : t) :
  alcanzable b ->
  let u := fst (crearUsuario nombre b) in
  let b' := snd (crearUsuario nombre b) in
  u = Usuario.mk (NextIds.usuario (nextIds b)) nombre /\
  ~ In (Usuario.id u) (map Usuario.id (listarUsuarios b)) /\
  listarUsuarios b' = listarUsuarios b ++ [u] /\
  libros b' = libros b /\
  prestamos b' = prestamos b /\
  nextIds b' = NextIds.mk (NextIds.libro (nextIds b))
                          (NextIds.usuario (nextIds b) + 1) (NextIds.prestamo (nextIds b)).
Proof.
  intros Hal u b'. subst u b'.
  pose proof (alcanzable_numerada b Hal) as (_ & (_ & Hu) & _).
  apply alcanzable_estado, estado_bien_formada in Hal as (_ & Bu & _).
  split; [reflexivity|]. split; [|split; [|repeat split]].
  - unfold listarUsuarios. rewrite (keys_values Usuario.id _ Bu), Hu, In_consecutivos.
    cbn. lia.
  - unfold crearUsuario, listarUsuarios, save. cbn.
    apply values_set_new. now apply consecutivos_libre.
Qed.

Lemma crearUsuario_al_final_witness :
  let b := ejecutar (CrearUsuario "Ana") (new None) in
  let u := fst (crearUsuario "Luis" b) in
  let b' := snd (crearUsuario "Luis" b) in
  u = Usuario.mk 2 "Luis" /\
  listarUsuarios b' = listarUsuarios b ++ [u].
Proof.
  cbv zeta.
  pose proof (crearUsuario_al_final "Luis"
    (ejecutar (CrearUsuario "Ana") (new None))
    (alc_paso (CrearUsuario "Ana") (new None) alc_inicial eq_refl))
    as (H1 & _ & H3 & _).
  split; [exact H1 | exact H3].
Defined.

End Altas.

(** ** Lending and returning, step by step *)

Module Circulacion.

Import JsMapFacts JsMapMas InvFacts Biblioteca Inv BienFormada Orden Numeracion.

(** What a successful [prestarLibro] found and what it leaves behind. *)
Lemma prestarLibro_exito ahora libroId usuarioId b :
  ok (fst (prestarLibro ahora libroId usuarioId b)) = true ->
  exists l u,
    JsMap.get libroId (libros b) = Some l /\
    JsMap.get usuarioId (usuarios b) = Some u /\
    Libro.isDisponible l = true /\
    prestarLibro ahora libroId usuarioId b
    = (mkRes true "Préstamo registrado"
         (Some (Prestamo.mk (NextIds.prestamo (nextIds b)) libroId usuarioId ahora None)),
       save (mk (JsMap.set libroId
                   (Libro.mk (Libro.id l) (Libro.titulo l) (Libro.autor l) (Libro.año l) false)
                   (libros b))
                (usuarios b)
                (JsMap.set (NextIds.prestamo (nextIds b))
                   (Prestamo.mk (NextIds.prestamo (nextIds b)) libroId usuarioId ahora None)
                   (prestamos b))
                (NextIds.mk (NextIds.libro (nextIds b)) (NextIds.usuario (nextIds b))
                            (NextIds.prestamo (nextIds b) + 1))
                (storage b))).
Proof.
  unfold prestarLibro, prestarLibro_aux.
  destruct (JsMap.get libroId (libros b)) as [l|] eqn:El; [|discriminate].
  destruct (JsMap.get usuarioId (usuarios b)) as [u|] eqn:Eu; [|discriminate].
  destruct (Libro.isDisponible l) eqn:D; cbn [negb]; [|discriminate].
  intros _. exists l, u. rewrite (LibroFacts.prestar_disponible l D).
  repeat split; try reflexivity; assumption.
Qed.

(** What a successful [devolverLibro] found and what it leaves behind. *)
Lemma devolverLibro_exito ahora prestamoId b :
  ok (fst (devolverLibro ahora prestamoId b)) = true ->
  exists p l,
    JsMap.get prestamoId (prestamos b) = Some p /\
    Prestamo.isActivo p = true /\
    JsMap.get (Prestamo.libroId p) (libros b) = Some l /\
    devolverLibro ahora prestamoId b
    = (mkRes true "Libro devuelto" None,
       save (mk (JsMap.set (Prestamo.libroId p)
                   (Libro.mk (Libro.id l) (Libro.titulo l) (Libro.autor l) (Libro.año l) true)
                   (libros b))
                (usuarios b)
                (JsMap.set prestamoId
                   (Prestamo.mk (Prestamo.id p) (Prestamo.libroId p) (Prestamo.usuarioId p)
                                (Prestamo.fechaPrestamo p) (Some ahora))
                   (prestamos b))
                (nextIds b) (storage b))).
Proof.
  unfold devolverLibro, devolverLibro_aux.
  destruct (JsMap.get prestamoId (prestamos b)) as [p|] eqn:Ep; [|discriminate].
  destruct (Prestamo.isActivo p) eqn:A; cbn [negb]; [|discriminate].
  destruct (JsMap.get (Prestamo.libroId p) (libros b)) as [l|] eqn:El; [|discriminate].
  intros _. exists p, l. rewrite (PrestamoFacts.devolver_activo ahora p A).
  pose proof (LibroFacts.devolver_disponible l) as Hd.
  destruct (Libro.devolver l) as [r2 l1]. cbn [snd] in Hd. subst l1.
  repeat split; try reflexivity; assumption.
Qed.

(** X11: in a state reached from the empty catalog, a [prestarLibro] that
    reports success returns a new active loan whose identifier is the loan
    counter and whose date is the clock reading; that loan is listed last;
    the book is now unavailable and nothing else about the books changed,
    their order included; users are untouched and only the loan counter
    moves, by one. *)
Theorem prestarLibro_efecto (ahora : string) (libroId usuarioId : Z) (b : t) :
  alcanzable b ->
  ok (fst (prestarLibro ahora libroId usuarioId b)) = true ->
  let p := Prestamo.mk (NextIds.prestamo (nextIds b)) libroId usuarioId ahora None in
  let b' := snd (prestarLibro ahora libroId usuarioId b) in
  fst (prestarLibro ahora libroId usuarioId b)
  = mkRes true "Préstamo registrado" (Some p) /\
  listarPrestamos false b' = listarPrestamos false b ++ [p] /\
  (exists l, JsMap.get libroId (libros b) = Some l /\
             Libro.isDisponible l = true /\
             libros b' = JsMap.set libroId
                           (Libro.mk (Libro.id l) (Libro.titulo l) (Libro.autor l)
                                     (Libro.año l) false) (libros b)) /\
  JsMap.keys (libros b') = JsMap.keys (libros b) /\
  usuarios b' = usuarios b /\
  nextIds b' = NextIds.mk (NextIds.libro (nextIds b)) (NextIds.usuario (nextIds b))
                          (NextIds.prestamo (nextIds b) + 1).
Proof.
  intros Hal Hok p b'. subst p b'.
  pose proof (alcanzable_numerada b Hal) as (_ & _ & (_ & Hp)).
  destruct (prestarLibro_exito _ _ _ _ Hok) as (l & u & El & Eu & D & ->).
  cbn [fst snd]. split; [reflexivity|]. split; [|split; [|split; [|split]]].
  - unfold listarPrestamos, save. cbn. apply values_set_new.
    now apply consecutivos_libre.
  - exists l. auto.
  - unfold save. cbn. apply keys_set_old. congruence.
  - reflexivity.
  - reflexivity.
Qed.

Lemma prestarLibro_efecto_witness :
  let b := ejecutar (CrearUsuario "Ana")
             (ejecutar (CrearLibro "El Aleph" "Borges" 1949) (new None)) in
  let p := Prestamo.mk 1 1 1 "2024-05-01T10:00:00.000Z" None in
  let b' := snd (prestarLibro "2024-05-01T10:00:00.000Z" 1 1 b) in
  fst (prestarLibro "2024-05-01T10:00:00.000Z" 1 1 b)
  = mkRes true "Préstamo registrado" (Some p) /\
  listarPrestamos false b' = listarPrestamos false b ++ [p].
Proof.
  cbv zeta.
  pose proof (prestarLibro_efecto "2024-05-01T10:00:00.000Z" 1 1
    (ejecutar (CrearUsuario "Ana")
       (ejecutar (CrearLibro "El Aleph" "Borges" 1949) (new None)))
    (alc_paso (CrearUsuario "Ana") _
       (alc_paso (CrearLibro "El Aleph" "Borges" 1949) (new None) alc_inicial eq_refl)
       eq_refl)
    eq_refl) as (H1 & H2 & _).
  split; [exact H1 | exact H2].
Defined.

(** A loan made and returned at once, with the counter moved as the model
    moves it. *)
Lemma prestar_y_devolver_aux (ahora1 ahora2 : string) (libroId usuarioId : Z) (b : t) :
  ok (fst (prestarLibro ahora1 libroId usuarioId b)) = true ->
  let n := NextIds.prestamo (nextIds b) in
  let b1 := snd (prestarLibro ahora1 libroId usuarioId b) in
  let b2 := snd (devolverLibro ahora2 n b1) in
  fst (devolverLibro ahora2 n b1) = mkRes true "Libro devuelto" None /\
  libros b2 = libros b /\
  usuarios b2 = usuarios b /\
  prestamos b2
  = JsMap.set n (Prestamo.mk n libroId usuarioId ahora1 (Some ahora2)) (prestamos b) /\
  nextIds b2 = NextIds.mk (NextIds.libro (nextIds b)) (NextIds.usuario (nextIds b)) (n + 1).
Proof.
  intros Hok n b1 b2. subst n b1 b2.
  destruct (prestarLibro_exito _ _ _ _ Hok) as (l & u & El & Eu & D & ->).
  cbn [snd]. unfold devolverLibro, devolverLibro_aux, save. cbn.
  rewrite get_set_same. cbn. rewrite get_set_same. cbn.
  split; [reflexivity|]. split; [|split; [reflexivity|split; [|reflexivity]]].
  - rewrite set_set. apply set_get_same. rewrite El. f_equal.
    destruct l as [i t a y d]. cbn in D. now subst d.
  - now rewrite set_set.
Qed.

(** X12: in any state whose loan counter is an integer that [n++] moves
    exactly, a [prestarLibro] that succeeded followed by [devolverLibro] on
    the loan it created succeeds too, and puts the book collection back
    exactly as it was before the loan; what remains is the closed loan,
    carrying both dates, and the loan counter one higher. *)
Theorem prestar_y_devolver (ahora1 ahora2 : string) (libroId usuarioId : Z) (b : t) :
  ok (fst (prestarLibro ahora1 libroId usuarioId b)) = true ->
  Valores.contador_exacto (NextIds.prestamo (nextIds b)) = true ->
  let n := NextIds.prestamo (nextIds b) in
  let b1 := snd (prestarLibro ahora1 libroId usuarioId b) in
  let b2 := snd (devolverLibro ahora2 n b1) in
  fst (devolverLibro ahora2 n b1) = mkRes true "Libro devuelto" None /\
  libros b2 = libros b /\
  usuarios b2 = usuarios b /\
  prestamos b2
  = JsMap.set n (Prestamo.mk n libroId usuarioId ahora1 (Some ahora2)) (prestamos b) /\
  nextIds b2 = NextIds.mk (NextIds.libro (nextIds b)) (NextIds.usuario (nextIds b)) (n + 1).
Proof.
  intros Hok _. exact (prestar_y_devolver_aux ahora1 ahora2 libroId usuarioId b Hok).
Qed.

Lemma prestar_y_devolver_witness :
  let b := ejecutar (CrearUsuario "Ana")
             (ejecutar (CrearLibro "El Aleph" "Borges" 1949) (new None)) in
  let b1 := snd (prestarLibro "2024-05-01T10:00:00.000Z" 1 1 b) in
  let b2 := snd (devolverLibro "2024-05-02T10:00:00.000Z" 1 b1) in
  fst (devolverLibro "2024-05-02T10:00:00.000Z" 1 b1) = mkRes true "Libro devuelto" None /\
  libros b2 = libros b.
Proof.
  cbv zeta.
  pose proof (prestar_y_devolver "2024-05-01T10:00:00.000Z" "2024-05-02T10:00:00.000Z" 1 1
    (ejecutar (CrearUsuario "Ana")
       (ejecutar (CrearLibro "El Aleph" "Borges" 1949) (new None)))
    eq_refl eq_refl) as (H1 & H2 & _).
  split; [exact H1 | exact H2].
Defined.

(** X13: in any state, after a [prestarLibro] that succeeded, a second
    [prestarLibro] on the same book fails, whoever asks and whenever, and
    changes nothing; for a user the catalog knows the answer is that the book
    is not available. *)
Theorem prestar_dos_veces (ahora1 ahora2 : string) (libroId usuarioId usuarioId2 : Z) (b : t) :
  ok (fst (prestarLibro ahora1 libroId usuarioId b)) = true ->
  let b1 := snd (prestarLibro ahora1 libroId usuarioId b) in
  ok (fst (prestarLibro ahora2 libroId usuarioId2 b1)) = false /\
  snd (prestarLibro ahora2 libroId usuarioId2 b1) = b1 /\
  (JsMap.has usuarioId2 (usuarios b) = true ->
   fst (prestarLibro ahora2 libroId usuarioId2 b1) = mkRes false "Libro no disponible" None).
Proof.
  intros Hok b1. subst b1.
  destruct (prestarLibro_exito _ _ _ _ Hok) as (l & u & El & Eu & D & ->).
  cbn [snd]. unfold prestarLibro at 1 2 3, prestarLibro_aux, save. cbn.
  rewrite get_set_same. rewrite has_get.
  destruct (JsMap.get usuarioId2 (usuarios b)); cbn; repeat split; discriminate.
Qed.

Lemma prestar_dos_veces_witness :
  let b := ejecutar (CrearUsuario "Luis") (ejecutar (CrearUsuario "Ana")
             (ejecutar (CrearLibro "El Aleph" "Borges" 1949) (new None))) in
  let b1 := snd (prestarLibro "2024-05-01T10:00:00.000Z" 1 1 b) in
  ok (fst (prestarLibro "2024-05-02T10:00:00.000Z" 1 2 b1)) = false /\
  snd (prestarLibro "2024-05-02T10:00:00.000Z" 1 2 b1) = b1.
Proof.
  cbv zeta.
  pose proof (prestar_dos_veces "2024-05-01T10:00:00.000Z" "2024-05-02T10:00:00.000Z" 1 1 2
    (ejecutar (CrearUsuario "Luis") (ejecutar (CrearUsuario "Ana")
       (ejecutar (CrearLibro "El Aleph" "Borges" 1949) (new None))))
    eq_refl) as (H1 & H2 & _).
  split; [exact H1 | exact H2].
Defined.

(** X14: in any state, after a [devolverLibro] that succeeded at a clock
    reading that is not the empty string, a second [devolverLibro] on the
    same loan answers that it is already returned and changes nothing. *)
Theorem devolver_dos_veces_catalogo (ahora1 ahora2 : string) (prestamoId : Z) (b : t) :
  ok (fst (devolverLibro ahora1 prestamoId b)) = true ->
  truthy ahora1 = true ->
  let b1 := snd (devolverLibro ahora1 prestamoId b) in
  devolverLibro ahora2 prestamoId b1 = (mkRes false "Ya devuelto" None, b1).
Proof.
  intros Hok Hah b1. subst b1.
  destruct (devolverLibro_exito _ _ _ Hok) as (p & l & Ep & A & El & ->).
  cbn [snd]. unfold devolverLibro, devolverLibro_aux, save. cbn.
  rewrite get_set_same. unfold Prestamo.isActivo. cbn. now rewrite Hah.
Qed.

Lemma devolver_dos_veces_catalogo_witness :
  let b := ejecutar (PrestarLibro "2024-05-01T10:00:00.000Z" 1 1)
             (ejecutar (CrearUsuario "Ana")
               (ejecutar (CrearLibro "El Aleph" "Borges" 1949) (new None))) in
  let b1 := snd (devolverLibro "2024-05-02T10:00:00.000Z" 1 b) in
  devolverLibro "2024-05-03T10:00:00.000Z" 1 b1 = (mkRes false "Ya devuelto" None, b1).
Proof.
  cbv zeta.
  apply (devolver_dos_veces_catalogo "2024-05-02T10:00:00.000Z" "2024-05-03T10:00:00.000Z" 1
    (ejecutar (PrestarLibro "2024-05-01T10:00:00.000Z" 1 1)
       (ejecutar (CrearUsuario "Ana")
          (ejecutar (CrearLibro "El Aleph" "Borges" 1949) (new None)))));
    reflexivity.
Defined.

(** X25: in any state whose loan counter is an integer that [n++] moves
    exactly, a book that was lent and returned can be lent again at once, to
    any user the catalog holds: the third call succeeds and hands out the
    next loan identifier. *)
Theorem prestar_devolver_prestar
    (ahora1 ahora2 ahora3 : string) (libroId usuarioId usuarioId3 : Z) (b : t) :
  ok (fst (prestarLibro ahora1 libroId usuarioId b)) = true ->
  Valores.contador_exacto (NextIds.prestamo (nextIds b)) = true ->
  JsMap.has usuarioId3 (usuarios b) = true ->
  let n := NextIds.prestamo (nextIds b) in
  let b2 := snd (devolverLibro ahora2 n (snd (prestarLibro ahora1 libroId usuarioId b))) in
  fst (prestarLibro ahora3 libroId usuarioId3 b2)
  = mkRes true "Préstamo registrado"
      (Some (Prestamo.mk (n + 1) libroId usuarioId3 ahora3 None)).
Proof.
  intros Hok _ Hu n b2.
  destruct (prestar_y_devolver_aux ahora1 ahora2 libroId usuarioId b Hok)
    as (_ & Hl & Hus & _ & Hn).
  fold n in Hl, Hus, Hn. fold b2 in Hl, Hus, Hn. clearbody b2.
  destruct (prestarLibro_exito _ _ _ _ Hok) as (l & u & El & _ & D & _).
  unfold prestarLibro, prestarLibro_aux. rewrite Hl, Hus, El, Hn.
  rewrite has_get in Hu. destruct (JsMap.get usuarioId3 (usuarios b)); [|discriminate].
  rewrite D. cbn [negb]. rewrite (LibroFacts.prestar_disponible l D). reflexivity.
Qed.

Lemma prestar_devolver_prestar_witness :
  let b := ejecutar (CrearUsuario "Luis") (ejecutar (CrearUsuario "Ana")
             (ejecutar (CrearLibro "El Aleph" "Borges" 1949) (new None))) in
  let b2 := snd (devolverLibro "2024-05-02T10:00:00.000Z" 1
                   (snd (prestarLibro "2024-05-01T10:00:00.000Z" 1 1 b))) in
  fst (prestarLibro "2024-05-03T10:00:00.000Z" 1 2 b2)
  = mkRes true "Préstamo registrado"
      (Some (Prestamo.mk 2 1 2 "2024-05-03T10:00:00.000Z" None)).
Proof.
  cbv zeta.
  apply (prestar_devolver_prestar "2024-05-01T10:00:00.000Z" "2024-05-02T10:00:00.000Z"
           "2024-05-03T10:00:00.000Z" 1 1 2
           (ejecutar (CrearUsuario "Luis") (ejecutar (CrearUsuario "Ana")
              (ejecutar (CrearLibro "El Aleph" "Borges" 1949) (new None)))));
    reflexivity.
Defined.

End Circulacion.

(** ** What a call never undoes *)

Module Permanencia.

Import JsMapFacts JsMapMas InvFacts Biblioteca Inv BienFormada Orden Numeracion Circulacion.

Lemma exito_o_nada_prestar ahora libroId usuarioId b :
  ok (fst (prestarLibro ahora libroId usuarioId b)) = true \/
  snd (prestarLibro ahora libroId usuarioId b) = b.
Proof.
  destruct (ok (fst (prestarLibro ahora libroId usuarioId b))) eqn:E; [now left|].
  right. now apply BibliotecaFacts.prestarLibro_fallo_sin_cambio.
Qed.

Lemma exito_o_nada_devolver ahora prestamoId b :
  ok (fst (devolverLibro ahora prestamoId b)) = true \/
  snd (devolverLibro ahora prestamoId b) = b.
Proof.
  destruct (ok (fst (devolverLibro ahora prestamoId b))) eqn:E; [now left|].
  right. now apply BibliotecaFacts.devolverLibro_fallo_sin_cambio.
Qed.

(** Keys and counters only grow. *)
Lemma claves_y_contadores_crecen (c : Llamada) (b : t) :
  incl (JsMap.keys (libros b)) (JsMap.keys (libros (ejecutar c b))) /\
  incl (JsMap.keys (usuarios b)) (JsMap.keys (usuarios (ejecutar c b))) /\
  incl (JsMap.keys (prestamos b)) (JsMap.keys (prestamos (ejecutar c b))) /\
  NextIds.libro (nextIds b) <= NextIds.libro (nextIds (ejecutar c b)) /\
  NextIds.usuario (nextIds b) <= NextIds.usuario (nextIds (ejecutar c b)) /\
  NextIds.prestamo (nextIds b) <= NextIds.prestamo (nextIds (ejecutar c b)).
Proof.
  destruct c as [titulo autor año|nombre|ahora libroId usuarioId|ahora prestamoId];
    cbn [ejecutar].
  - unfold crearLibro, save. cbn.
    repeat split; try apply incl_refl; try lia. apply keys_set_incl.
  - unfold crearUsuario, save. cbn.
    repeat split; try apply incl_refl; try lia. apply keys_set_incl.
  - destruct (exito_o_nada_prestar ahora libroId usuarioId b) as [Hok| ->].
    + destruct (prestarLibro_exito _ _ _ _ Hok) as (l & u & _ & _ & _ & ->).
      unfold save. cbn.
      repeat split; try apply incl_refl; try lia; apply keys_set_incl.
    + repeat split; try apply incl_refl; lia.
  - destruct (exito_o_nada_devolver ahora prestamoId b) as [Hok| ->].
    + destruct (devolverLibro_exito _ _ _ Hok) as (p & l & _ & _ & _ & ->).
      unfold save. cbn.
      repeat split; try apply incl_refl; try lia; apply keys_set_incl.
    + repeat split; try apply incl_refl; lia.
Qed.

(** X15: no call removes anything or turns a counter back: every key of the
    three collections is still a key after the call, and each counter is at
    least what it was. *)
Theorem nada_se_borra (c : Llamada) (b : t) :
  incl (JsMap.keys (libros b)) (JsMap.keys (libros (ejecutar c b))) /\
  incl (JsMap.keys (usuarios b)) (JsMap.keys (usuarios (ejecutar c b))) /\
  incl (JsMap.keys (prestamos b)) (JsMap.keys (prestamos (ejecutar c b))) /\
  NextIds.libro (nextIds b) <= NextIds.libro (nextIds (ejecutar c b)) /\
  NextIds.usuario (nextIds b) <= NextIds.usuario (nextIds (ejecutar c b)) /\
  NextIds.prestamo (nextIds b) <= NextIds.prestamo (nextIds (ejecutar c b)).
Proof. apply claves_y_contadores_crecen. Qed.

(** X16: in a state reached from the empty catalog, a call leaves every
    user as it is; a book keeps its identifier, title, author and year; a
    loan keeps its identifier, book, user and loan date, and a loan that is
    no longer active is not touched at all. *)
Theorem lo_creado_no_cambia (c : Llamada) (b : t) :
  alcanzable b ->
  (forall k u, JsMap.get k (usuarios b) = Some u ->
               JsMap.get k (usuarios (ejecutar c b)) = Some u) /\
  (forall k l, JsMap.get k (libros b) = Some l ->
     exists l', JsMap.get k (libros (ejecutar c b)) = Some l' /\
                Libro.id l' = Libro.id l /\ Libro.titulo l' = Libro.titulo l /\
                Libro.autor l' = Libro.autor l /\ Libro.año l' = Libro.año l) /\
  (forall k p, JsMap.get k (prestamos b) = Some p ->
     exists p', JsMap.get k (prestamos (ejecutar c b)) = Some p' /\
                Prestamo.id p' = Prestamo.id p /\
                Prestamo.libroId p' = Prestamo.libroId p /\
                Prestamo.usuarioId p' = Prestamo.usuarioId p /\
                Prestamo.fechaPrestamo p' = Prestamo.fechaPrestamo p /\
                (Prestamo.isActivo p = false -> p' = p)).
Proof.
  intros Hal.
  pose proof (alcanzable_numerada b Hal) as ((_ & Hl) & (_ & Hu) & (_ & Hp)).
  apply consecutivos_libre in Hl, Hu, Hp.
  assert (forall (V : Type) (m : JsMap.t V) n k v x,
            JsMap.get n m = None -> JsMap.get k m = Some v ->
            JsMap.get k (JsMap.set n x m) = Some v) as Hotro.
  { intros V m n k v x Hn Hk. rewrite get_set_other; [assumption|]. congruence. }
  destruct c as [titulo autor año|nombre|ahora libroId usuarioId|ahora prestamoId];
    cbn [ejecutar].
  - unfold crearLibro, save. cbn. repeat split.
    + auto.
    + intros k l Hk. exists l. split; [now apply Hotro | auto].
    + intros k p Hk. exists p. auto 10.
  - unfold crearUsuario, save. cbn. repeat split.
    + intros k u Hk. now apply Hotro.
    + intros k l Hk. exists l. auto.
    + intros k p Hk. exists p. auto 10.
  - destruct (exito_o_nada_prestar ahora libroId usuarioId b) as [Hok| ->].
    + destruct (prestarLibro_exito _ _ _ _ Hok) as (l & u & El & _ & _ & ->).
      unfold save. cbn. repeat split.
      * auto.
      * intros k l0 Hk. destruct (Z.eq_dec k libroId) as [->|Hne].
        -- rewrite get_set_same. rewrite El in Hk. injection Hk as <-.
           eexists. split; [reflexivity|]. auto.
        -- rewrite get_set_other by assumption. exists l0. auto.
      * intros k p Hk. exists p. split; [now apply Hotro | auto 10].
    + repeat split; [auto | intros k l Hk; exists l; auto
                     | intros k p Hk; exists p; auto 10].
  - destruct (exito_o_nada_devolver ahora prestamoId b) as [Hok| ->].
    + destruct (devolverLibro_exito _ _ _ Hok) as (p & l & Ep & A & El & ->).
      unfold save. cbn. repeat split.
      * auto.
      * intros k l0 Hk. destruct (Z.eq_dec k (Prestamo.libroId p)) as [->|Hne].
        -- rewrite get_set_same. rewrite El in Hk. injection Hk as <-.
           eexists. split; [reflexivity|]. auto.
        -- rewrite get_set_other by assumption. exists l0. auto.
      * intros k p0 Hk. destruct (Z.eq_dec k prestamoId) as [->|Hne].
        -- rewrite get_set_same. rewrite Ep in Hk. injection Hk as <-.
           eexists. split; [reflexivity|]. repeat split. congruence.
        -- rewrite get_set_other by assumption. exists p0. auto 10.
    + repeat split; [auto | intros k l Hk; exists l; auto
                     | intros k p Hk; exists p; auto 10].
Qed.

Lemma lo_creado_no_cambia_witness :
  let b := ejecutar (DevolverLibro "2024-05-02T10:00:00.000Z" 1)
            (ejecutar (PrestarLibro "2024-05-01T10:00:00.000Z" 1 1)
              (ejecutar (CrearUsuario "Ana")
                (ejecutar (CrearLibro "El Aleph" "Borges" 1949) (new None)))) in
  let c := CrearUsuario "Luis" in
  JsMap.get 1 (usuarios (ejecutar c b)) = Some (Usuario.mk 1 "Ana") /\
  exists p', JsMap.get 1 (prestamos (ejecutar c b)) = Some p' /\
             Prestamo.fechaPrestamo p' = "2024-05-01T10:00:00.000Z".
Proof.
  cbv zeta.
  assert (alcanzable
    (ejecutar (DevolverLibro "2024-05-02T10:00:00.000Z" 1)
       (ejecutar (PrestarLibro "2024-05-01T10:00:00.000Z" 1 1)
          (ejecutar (CrearUsuario "Ana")
             (ejecutar (CrearLibro "El Aleph" "Borges" 1949) (new None)))))) as Hal.
  { repeat (apply alc_paso; [|reflexivity]). apply alc_inicial. }
  destruct (lo_creado_no_cambia (CrearUsuario "Luis") _ Hal) as (Hu & _ & Hp).
  split; [apply Hu; reflexivity|].
  destruct (Hp 1 (Prestamo.mk 1 1 1 "2024-05-01T10:00:00.000Z"
                    (Some "2024-05-02T10:00:00.000Z")) eq_refl)
    as (p' & Hg & _ & _ & _ & Hf & _).
  exists p'. split; [exact Hg | exact Hf].
Defined.

End Permanencia.

(** ** Counting books and loans *)

Module Cuentas.

Import JsMapFacts JsMapMas InvFacts Biblioteca Inv BienFormada Orden Numeracion
       Circulacion Permanencia Coherencia.

Lemma estadisticas_count b :
  estadisticas b
  = mkEst (JsMap.size (libros b)) (JsMap.count Libro.isDisponible (libros b))
          (JsMap.count Prestamo.isActivo (prestamos b)).
Proof. reflexivity. Qed.

(** In a coherent state the book of an active loan is there and is lent. *)
Lemma activo_implica_prestado b prestamoId p :
  coherente b ->
  JsMap.get prestamoId (prestamos b) = Some p ->
  Prestamo.isActivo p = true ->
  exists l, JsMap.get (Prestamo.libroId p) (libros b) = Some l /\
            Libro.isDisponible l = false.
Proof.
  intros (_ & _ & _ & Hc) Ep A. specialize (Hc (Prestamo.libroId p)).
  rewrite prestamos_activos_de_count in Hc.
  pose proof (count_pos
    (fun q => Prestamo.isActivo q && (Prestamo.libroId q =? Prestamo.libroId p))
    prestamoId p (prestamos b) Ep) as Hpos.
  cbn beta in Hpos. rewrite A, Z.eqb_refl in Hpos. specialize (Hpos eq_refl).
  unfold activos_esperados in Hc.
  destruct (JsMap.get (Prestamo.libroId p) (libros b)) as [l|]; [|lia].
  exists l. split; [reflexivity|]. destruct (Libro.isDisponible l); [lia | reflexivity].
Qed.

Lemma fallo_sin_cambio c b : exito c b = false -> ejecutar c b = b.
Proof.
  destruct c; cbn [exito ejecutar]; try discriminate.
  - apply BibliotecaFacts.prestarLibro_fallo_sin_cambio.
  - apply BibliotecaFacts.devolverLibro_fallo_sin_cambio.
Qed.

(** How one successful call moves the three statistics. *)
Lemma estadisticas_paso_aux (c : Llamada) (b : t) :
  alcanzable b -> reloj_valido c = true -> exito c b = true ->
  let e := estadisticas b in
  let e' := estadisticas (ejecutar c b) in
  match c with
  | CrearLibro _ _ _ =>
      e' = mkEst (S (totalLibros e)) (S (disponibles e)) (prestamosActivos e)
  | CrearUsuario _ => e' = e
  | PrestarLibro _ _ _ =>
      totalLibros e' = totalLibros e /\
      S (disponibles e') = disponibles e /\
      prestamosActivos e' = S (prestamosActivos e)
  | DevolverLibro _ _ =>
      totalLibros e' = totalLibros e /\
      disponibles e' = S (disponibles e) /\
      S (prestamosActivos e') = prestamosActivos e
  end.
Proof.
  intros Hal Hr Hex e e'. subst e e'. rewrite !estadisticas_count.
  pose proof (alcanzable_numerada b Hal) as ((_ & Hl) & _ & (_ & Hp)).
  apply consecutivos_libre in Hl, Hp.
  pose proof (alcanzable_coherente b Hal) as Hco.
  destruct c as [titulo autor año|nombre|ahora libroId usuarioId|ahora prestamoId];
    cbn [exito ejecutar reloj_valido] in *.
  - unfold crearLibro, save. cbn [snd libros prestamos].
    pose proof (count_set Libro.isDisponible (NextIds.libro (nextIds b))
                  (Libro.new (NextIds.libro (nextIds b)) titulo autor año) (libros b)) as Hn.
    rewrite size_set, Hl in *. cbn in Hn. cbn [totalLibros disponibles prestamosActivos].
    f_equal; lia.
  - reflexivity.
  - destruct (prestarLibro_exito _ _ _ _ Hex) as (l & u & El & _ & D & ->).
    unfold save. cbn [snd libros prestamos totalLibros disponibles prestamosActivos].
    pose proof (count_set Libro.isDisponible libroId
      (Libro.mk (Libro.id l) (Libro.titulo l) (Libro.autor l) (Libro.año l) false)
      (libros b)) as Hn.
    pose proof (count_set Prestamo.isActivo (NextIds.prestamo (nextIds b))
      (Prestamo.mk (NextIds.prestamo (nextIds b)) libroId usuarioId ahora None)
      (prestamos b)) as Hm.
    rewrite size_set, El in *. rewrite Hp in Hm. rewrite D in Hn. cbn in Hn, Hm.
    repeat split; lia.
  - destruct (devolverLibro_exito _ _ _ Hex) as (p & l & Ep & A & El & ->).
    destruct (activo_implica_prestado b prestamoId p Hco Ep A) as (l0 & El0 & D).
    rewrite El in El0. injection El0 as <-.
    unfold save. cbn [snd libros prestamos totalLibros disponibles prestamosActivos].
    pose proof (count_set Libro.isDisponible (Prestamo.libroId p)
      (Libro.mk (Libro.id l) (Libro.titulo l) (Libro.autor l) (Libro.año l) true)
      (libros b)) as Hn.
    pose proof (count_set Prestamo.isActivo prestamoId
      (Prestamo.mk (Prestamo.id p) (Prestamo.libroId p) (Prestamo.usuarioId p)
                   (Prestamo.fechaPrestamo p) (Some ahora))
      (prestamos b)) as Hm.
    rewrite size_set, El in *. rewrite Ep, A in Hm. rewrite D in Hn.
    rewrite PrestamoFacts.isActivo_devuelto, Hr in Hm. cbn in Hn, Hm.
    repeat split; lia.
Qed.

(** X17: in every state reached from the empty catalog, the available books
    and the active loans add up to the number of books. *)
Theorem estadisticas_balance (b : t) :
  alcanzable b ->
  (disponibles (estadisticas b) + prestamosActivos (estadisticas b)
   = totalLibros (estadisticas b))%nat.
Proof.
  induction 1 as [|c b Hal IH Hr]; [reflexivity|].
  destruct (exito c b) eqn:Hex; [|now rewrite (fallo_sin_cambio c b Hex)].
  pose proof (estadisticas_paso_aux c b Hal Hr Hex) as H. cbv zeta in H.
  destruct c;
    [rewrite H; cbn [disponibles prestamosActivos totalLibros]; lia
    | now rewrite H | lia | lia].
Qed.

Lemma estadisticas_balance_witness :
  let b := ejecutar (PrestarLibro "2024-05-01T10:00:00.000Z" 2 1)
             (ejecutar (CrearLibro "Ficciones" "Borges" 1944)
               (ejecutar (CrearUsuario "Ana")
                 (ejecutar (CrearLibro "El Aleph" "Borges" 1949) (new None)))) in
  (disponibles (estadisticas b) + prestamosActivos (estadisticas b)
   = totalLibros (estadisticas b))%nat.
Proof.
  cbv zeta. apply estadisticas_balance.
  repeat (apply alc_paso; [|reflexivity]). apply alc_inicial.
Defined.

(** X18: in a state reached from the empty catalog, a successful call moves
    the statistics as follows: [crearLibro] adds one book and one available
    book, [crearUsuario] changes nothing, [prestarLibro] turns one available
    book into one active loan, and [devolverLibro] turns one active loan
    back into one available book. *)
Theorem estadisticas_paso (c : Llamada) (b : t) :
  alcanzable b -> reloj_valido c = true -> exito c b = true ->
  let e := estadisticas b in
  let e' := estadisticas (ejecutar c b) in
  match c with
  | CrearLibro _ _ _ =>
      e' = mkEst (S (totalLibros e)) (S (disponibles e)) (prestamosActivos e)
  | CrearUsuario _ => e' = e
  | PrestarLibro _ _ _ =>
      totalLibros e' = totalLibros e /\
      S (disponibles e') = disponibles e /\
      prestamosActivos e' = S (prestamosActivos e)
  | DevolverLibro _ _ =>
      totalLibros e' = totalLibros e /\
      disponibles e' = S (disponibles e) /\
      S (prestamosActivos e') = prestamosActivos e
  end.
Proof. exact (estadisticas_paso_aux c b). Qed.

Lemma estadisticas_paso_witness :
  let b := ejecutar (PrestarLibro "2024-05-01T10:00:00.000Z" 2 1)
             (ejecutar (CrearLibro "Ficciones" "Borges" 1944)
               (ejecutar (CrearUsuario "Ana")
                 (ejecutar (CrearLibro "El Aleph" "Borges" 1949) (new None)))) in
  let e := estadisticas b in
  let e' := estadisticas (ejecutar (DevolverLibro "2024-05-02T10:00:00.000Z" 1) b) in
  totalLibros e' = totalLibros e /\
  disponibles e' = S (disponibles e) /\
  S (prestamosActivos e') = prestamosActivos e.
Proof.
  cbv zeta.
  apply (estadisticas_paso (DevolverLibro "2024-05-02T10:00:00.000Z" 1)
    (ejecutar (PrestarLibro "2024-05-01T10:00:00.000Z" 2 1)
       (ejecutar (CrearLibro "Ficciones" "Borges" 1944)
          (ejecutar (CrearUsuario "Ana")
             (ejecutar (CrearLibro "El Aleph" "Borges" 1949) (new None))))));
    [|reflexivity|reflexivity].
  repeat (apply alc_paso; [|reflexivity]). apply alc_inicial.
Defined.

End Cuentas.

(** ** Loans and the books and users they point at *)

Module Integridad.

Import JsMapFacts JsMapMas InvFacts Biblioteca Inv BienFormada Orden Numeracion
       Circulacion Permanencia Coherencia Cuentas.

Lemma In_values_set {V : Type} k (v v' : V) m :
  In v' (JsMap.values (JsMap.set k v m)) -> v' = v \/ In v' (JsMap.values m).
Proof.
  unfold JsMap.values. rewrite !in_map_iff. intros ([k0 v0] & Heq & Hin).
  cbn in Heq. subst v0. apply In_set in Hin as [[_ ->]|Hin]; [now left|].
  right. now exists (k0, v').
Qed.

Lemma has_crece_libros c b k :
  JsMap.has k (libros b) = true -> JsMap.has k (libros (ejecutar c b)) = true.
Proof.
  rewrite !has_keys. apply (claves_y_contadores_crecen c b).
Qed.

Lemma has_crece_usuarios c b k :
  JsMap.has k (usuarios b) = true -> JsMap.has k (usuarios (ejecutar c b)) = true.
Proof.
  rewrite !has_keys. apply (claves_y_contadores_crecen c b).
Qed.

Lemma get_has {V : Type} k (v : V) m : JsMap.get k m = Some v -> JsMap.has k m = true.
Proof. intros H. now rewrite has_get, H. Qed.

Lemma referencias_ok_ejecutar c b : referencias_ok b -> referencias_ok (ejecutar c b).
Proof.
  intros Href p Hin.
  assert ((exists p0, In p0 (listarPrestamos false b) /\
                      Prestamo.libroId p0 = Prestamo.libroId p /\
                      Prestamo.usuarioId p0 = Prestamo.usuarioId p) \/
          (JsMap.has (Prestamo.libroId p) (libros b) = true /\
           JsMap.has (Prestamo.usuarioId p) (usuarios b) = true)) as Hq.
  { destruct c as [titulo autor año|nombre|ahora libroId usuarioId|ahora prestamoId];
      cbn [ejecutar] in Hin.
    - left. exists p. auto.
    - left. exists p. auto.
    - destruct (exito_o_nada_prestar ahora libroId usuarioId b) as [Hok|Hno].
      + destruct (prestarLibro_exito _ _ _ _ Hok) as (l & u & El & Eu & _ & Heq).
        rewrite Heq in Hin. unfold listarPrestamos, save in Hin. cbn in Hin.
        apply In_values_set in Hin as [->|Hin].
        * right. cbn. split; [exact (get_has _ _ _ El) | exact (get_has _ _ _ Eu)].
        * left. exists p. auto.
      + rewrite Hno in Hin. left. exists p. auto.
    - destruct (exito_o_nada_devolver ahora prestamoId b) as [Hok|Hno].
      + destruct (devolverLibro_exito _ _ _ Hok) as (p0 & l & Ep & _ & _ & Heq).
        rewrite Heq in Hin. unfold listarPrestamos, save in Hin. cbn in Hin.
        apply In_values_set in Hin as [->|Hin].
        * left. exists p0. split; [exact (get_In_values _ _ _ Ep) | auto].
        * left. exists p. auto.
      + rewrite Hno in Hin. left. exists p. auto. }
  destruct Hq as [(p0 & Hin0 & <- & <-)|[H1 H2]].
  - destruct (Href p0 Hin0) as [H1 H2].
    split; [now apply has_crece_libros | now apply has_crece_usuarios].
  - split; [now apply has_crece_libros | now apply has_crece_usuarios].
Qed.

Lemma alcanzable_referencias b : alcanzable b -> referencias_ok b.
Proof.
  induction 1 as [|c b Hal IH Hr]; [intros p []|now apply referencias_ok_ejecutar].
Qed.

Lemma filter_no_vacio {A : Type} (f : A -> bool) (xs : list A) :
  (1 <= List.length (filter f xs))%nat -> exists x, In x xs /\ f x = true.
Proof.
  destruct (filter f xs) as [|x r] eqn:E; cbn; [lia|]. intros _.
  exists x. apply filter_In. rewrite E. now left.
Qed.

(** X19: in every state reached from the empty catalog, every loan, active
    or returned, points at a book and at a user the catalog holds; the book
    of an active loan is unavailable; and every unavailable book has an
    active loan pointing at it. *)
Theorem prestamos_integros (b : t) :
  alcanzable b ->
  (forall p, In p (listarPrestamos false b) ->
     JsMap.has (Prestamo.libroId p) (libros b) = true /\
     JsMap.has (Prestamo.usuarioId p) (usuarios b) = true) /\
  (forall p, In p (listarPrestamos true b) ->
     exists l, JsMap.get (Prestamo.libroId p) (libros b) = Some l /\
               Libro.isDisponible l = false) /\
  (forall l, In l (listarLibros b) -> Libro.isDisponible l = false ->
     exists p, In p (listarPrestamos true b) /\ Prestamo.libroId p = Libro.id l).
Proof.
  intros Hal. split; [exact (alcanzable_referencias b Hal)|].
  pose proof (alcanzable_coherente b Hal) as Hco. split.
  - intros p Hin. unfold listarPrestamos in Hin. apply filter_In in Hin as [Hin A].
    pose proof Hco as ((_ & _ & Bp) & _).
    apply (activo_implica_prestado b (Prestamo.id p) p Hco); [|exact A].
    now apply valor_get.
  - intros l Hin D. destruct Hco as (Hbf & _ & _ & Hc).
    specialize (Hc (Libro.id l)). unfold activos_esperados in Hc.
    rewrite (listado_get b l Hbf Hin), D in Hc.
    destruct (filter_no_vacio
      (fun p => Prestamo.isActivo p && (Prestamo.libroId p =? Libro.id l))
      (JsMap.values (prestamos b))) as (p & Hp & Hf).
    { unfold prestamos_activos_de in Hc. lia. }
    apply andb_true_iff in Hf as [A E]. apply Z.eqb_eq in E.
    exists p. split; [|exact E]. unfold listarPrestamos. apply filter_In. auto.
Qed.

Lemma prestamos_integros_witness :
  let b := ejecutar (PrestarLibro "2024-05-01T10:00:00.000Z" 1 1)
             (ejecutar (CrearUsuario "Ana")
               (ejecutar (CrearLibro "El Aleph" "Borges" 1949) (new None))) in
  exists p, In p (listarPrestamos true b) /\ Prestamo.libroId p = 1.
Proof.
  cbv zeta.
  assert (alcanzable
    (ejecutar (PrestarLibro "2024-05-01T10:00:00.000Z" 1 1)
       (ejecutar (CrearUsuario "Ana")
          (ejecutar (CrearLibro "El Aleph" "Borges" 1949) (new None))))) as Hal.
  { repeat (apply alc_paso; [|reflexivity]). apply alc_inicial. }
  destruct (prestamos_integros _ Hal) as (_ & _ & H).
  apply (H (Libro.mk 1 "El Aleph" "Borges" 1949 false)); [left|]; reflexivity.
Defined.

(** X20: in every state reached from the empty catalog, [devolverLibro]
    never answers that the book does not exist, and when it reaches the two
    calls whose results it drops, [prestamo.devolver] and [libro.devolver]
    both return true. *)
Theorem devolver_sin_anomalia (ahora : string) (prestamoId : Z) (b : t) :
  alcanzable b ->
  fst (devolverLibro ahora prestamoId b) <> mkRes false "Libro inexistente" None /\
  (snd (devolverLibro_aux ahora prestamoId b) = None \/
   snd (devolverLibro_aux ahora prestamoId b) = Some (true, true)).
Proof.
  intros Hal. pose proof (alcanzable_coherente b Hal) as Hco.
  unfold devolverLibro, devolverLibro_aux.
  destruct (JsMap.get prestamoId (prestamos b)) as [p|] eqn:Ep;
    [|split; [discriminate | now left]].
  destruct (Prestamo.isActivo p) eqn:A; cbn [negb];
    [|split; [discriminate | now left]].
  destruct (activo_implica_prestado b prestamoId p Hco Ep A) as (l & El & D).
  rewrite El, (PrestamoFacts.devolver_activo ahora p A).
  unfold Libro.devolver. unfold Libro.isDisponible in D. rewrite D. cbn.
  split; [discriminate | now right].
Qed.

Lemma devolver_sin_anomalia_witness :
  let b := ejecutar (PrestarLibro "2024-05-01T10:00:00.000Z" 1 1)
             (ejecutar (CrearUsuario "Ana")
               (ejecutar (CrearLibro "El Aleph" "Borges" 1949) (new None))) in
  fst (devolverLibro "2024-05-02T10:00:00.000Z" 1 b)
  <> mkRes false "Libro inexistente" None /\
  (snd (devolverLibro_aux "2024-05-02T10:00:00.000Z" 1 b) = None \/
   snd (devolverLibro_aux "2024-05-02T10:00:00.000Z" 1 b) = Some (true, true)).
Proof.
  cbv zeta. apply devolver_sin_anomalia.
  repeat (apply alc_paso; [|reflexivity]). apply alc_inicial.
Defined.

End Integridad.

(** ** Starting a service from what the port holds *)

Module Arranque.

Import JsMapFacts JsMapMas InvFacts Biblioteca Inv BienFormada Orden Numeracion
       Circulacion Permanencia Persistencia.

(** X21: a new service takes its collections from the snapshot the port
    holds: under each identifier it has the entity read from the last array
    element with that identifier, so of two elements with one identifier the
    later wins; an array that is missing gives an empty collection, missing
    counters stay at 1, and the port is left as it was. *)
Theorem new_desde_snapshot (data : DBShape) (k : Z) :
  let b := new (Some data) in
  JsMap.get k (libros b)
  = match db_libros data with
    | Some arr => option_map Libro.fromJSON (find (fun j => Libro.jid j =? k) (rev arr))
    | None => None
    end /\
  JsMap.get k (usuarios b)
  = match db_usuarios data with
    | Some arr => option_map Usuario.fromJSON (find (fun j => Usuario.jid j =? k) (rev arr))
    | None => None
    end /\
  JsMap.get k (prestamos b)
  = match db_prestamos data with
    | Some arr => option_map Prestamo.fromJSON (find (fun j => Prestamo.jid j =? k) (rev arr))
    | None => None
    end /\
  nextIds b = match db_nextIds data with Some n => n | None => NextIds.mk 1 1 1 end /\
  storage b = Some data.
Proof.
  cbv zeta. unfold new, load. cbn.
  repeat split.
  - destruct (db_libros data) as [arr|]; [|reflexivity].
    change (load_libros arr JsMap.empty)
      with (cargar Libro.jid Libro.fromJSON arr JsMap.empty).
    rewrite get_cargar. now destruct (find _ (rev arr)).
  - destruct (db_usuarios data) as [arr|]; [|reflexivity].
    change (load_usuarios arr JsMap.empty)
      with (cargar Usuario.jid Usuario.fromJSON arr JsMap.empty).
    rewrite get_cargar. now destruct (find _ (rev arr)).
  - destruct (db_prestamos data) as [arr|]; [|reflexivity].
    change (load_prestamos arr JsMap.empty)
      with (cargar Prestamo.jid Prestamo.fromJSON arr JsMap.empty).
    rewrite get_cargar. now destruct (find _ (rev arr)).
Qed.

Lemma persistida_ejecutar c b : persistida b -> persistida (ejecutar c b).
Proof.
  intros Hp.
  destruct c as [titulo autor año|nombre|ahora libroId usuarioId|ahora prestamoId];
    cbn [ejecutar].
  - right. reflexivity.
  - right. reflexivity.
  - destruct (exito_o_nada_prestar ahora libroId usuarioId b) as [Hok| ->]; [|exact Hp].
    destruct (prestarLibro_exito _ _ _ _ Hok) as (l & u & _ & _ & _ & ->).
    right. reflexivity.
  - destruct (exito_o_nada_devolver ahora prestamoId b) as [Hok| ->]; [|exact Hp].
    destruct (devolverLibro_exito _ _ _ Hok) as (p & l & _ & _ & _ & ->).
    right. reflexivity.
Qed.

Lemma alcanzable_persistida b : alcanzable b -> persistida b.
Proof.
  induction 1 as [|c b Hal IH Hr]; [now left | now apply persistida_ejecutar].
Qed.

(** X22: at any point of a run that started from the empty catalog, a new
    service constructed on the same port has the same books, users and loans
    in the same order, the same counters and the same statistics: failed
    calls included, nothing the service holds is missing from the port. *)
Theorem reinicio (b : t) :
  alcanzable b ->
  libros (new (storage b)) = libros b /\
  usuarios (new (storage b)) = usuarios b /\
  prestamos (new (storage b)) = prestamos b /\
  nextIds (new (storage b)) = nextIds b /\
  estadisticas (new (storage b)) = estadisticas b.
Proof.
  intros Hal.
  assert (libros (new (storage b)) = libros b /\
          usuarios (new (storage b)) = usuarios b /\
          prestamos (new (storage b)) = prestamos b /\
          nextIds (new (storage b)) = nextIds b) as (H1 & H2 & H3 & H4).
  { destruct (alcanzable_persistida b Hal) as [->|Hs].
    - repeat split.
    - rewrite Hs. apply (guardar_y_cargar_bien_formada b).
      now apply estado_bien_formada, alcanzable_estado. }
  repeat split; try assumption.
  unfold estadisticas, listarPrestamos. now rewrite H1, H3.
Qed.

Lemma reinicio_witness :
  let b := ejecutar (PrestarLibro "2024-05-03T10:00:00.000Z" 1 1)
            (ejecutar (PrestarLibro "2024-05-01T10:00:00.000Z" 1 1)
              (ejecutar (CrearUsuario "Ana")
                (ejecutar (CrearLibro "El Aleph" "Borges" 1949) (new None)))) in
  libros (new (storage b)) = libros b /\
  usuarios (new (storage b)) = usuarios b /\
  prestamos (new (storage b)) = prestamos b /\
  nextIds (new (storage b)) = nextIds b /\
  estadisticas (new (storage b)) = estadisticas b.
Proof.
  cbv zeta. apply reinicio.
  repeat (apply alc_paso; [|reflexivity]). apply alc_inicial.
Defined.

End Arranque.

(** ** The demo *)

Module MainFacts.

Import JsMapFacts JsMapMas InvFacts Biblioteca Inv BienFormada Orden Numeracion
       Circulacion Permanencia Coherencia Cuentas Persistencia Arranque Main.

(** On the port of a state reached from the empty catalog, a new service
    is that state. *)
Lemma new_storage b : alcanzable b -> new (storage b) = b.
Proof.
  intros Hal.
  assert (storage (new (storage b)) = storage b) as H5.
  { unfold new, load. cbn. now destruct (storage b). }
  assert (libros (new (storage b)) = libros b /\
          usuarios (new (storage b)) = usuarios b /\
          prestamos (new (storage b)) = prestamos b /\
          nextIds (new (storage b)) = nextIds b) as (H1 & H2 & H3 & H4).
  { destruct (alcanzable_persistida b Hal) as [->|Hs].
    - repeat split.
    - rewrite Hs. apply (guardar_y_cargar_bien_formada b).
      now apply estado_bien_formada, alcanzable_estado. }
  destruct (new (storage b)) as [l u p n s], b as [l' u' p' n' s'].
  cbn in *. now subst.
Qed.

Lemma filter_todos {A : Type} (f : A -> bool) (xs : list A) :
  List.length (filter f xs) = List.length xs -> forall x, In x xs -> f x = true.
Proof.
  induction xs as [|y ys IH]; cbn; [intros _ x []|].
  pose proof (filter_length_le f ys) as Hle.
  destruct (f y) eqn:E; cbn; intros H x [->|Hin]; try lia; auto.
Qed.

(** The first entry of a collection numbered from 1 sits under 1. *)
Lemma primero_es_1 {V : Type} (idf : V -> Z) (m : JsMap.t V) n v vs :
  bien_indexado idf m -> JsMap.keys m = consecutivos n ->
  JsMap.values m = v :: vs -> idf v = 1 /\ JsMap.get 1 m = Some v.
Proof.
  intros Hbi Hk Hv. pose proof (keys_values idf m Hbi) as Hkv.
  rewrite Hv, Hk in Hkv. cbn [map] in Hkv.
  unfold consecutivos in Hkv.
  destruct (Z.to_nat (n - 1)) as [|k]; [discriminate|].
  cbn in Hkv. injection Hkv as Hid _.
  split; [exact Hid|]. rewrite <- Hid. apply valor_get; [assumption|].
  rewrite Hv. now left.
Qed.

(** One run of the demo on the port of a state that has books and users
    and no active loan: one loan is made and returned. *)
Lemma demo_sobre_catalogo ahora1 ahora2 b :
  alcanzable b -> truthy ahora1 = true -> truthy ahora2 = true ->
  estadisticas b = mkEst 3 3 0 -> JsMap.size (usuarios b) = 3%nat ->
  let b' := demo ahora1 ahora2 (storage b) in
  alcanzable b' /\ estadisticas b' = mkEst 3 3 0 /\
  JsMap.size (usuarios b') = 3%nat /\
  JsMap.size (prestamos b') = S (JsMap.size (prestamos b)).
Proof.
  intros Hal H1 H2 Hest Hus b'. subst b'. unfold demo.
  rewrite (new_storage b Hal). cbv zeta.
  pose proof (alcanzable_numerada b Hal) as ((_ & Hkl) & (_ & Hku) & (_ & Hkp)).
  pose proof (estado_bien_formada b (alcanzable_estado b Hal)) as (Bl & Bu & Bp).
  rewrite estadisticas_count in Hest. injection Hest as Htot Hdis Hact.
  assert (List.length (listarLibros b) = 3%nat) as Hll.
  { unfold listarLibros, JsMap.values. now rewrite length_map. }
  assert (List.length (listarUsuarios b) = 3%nat) as Hlu.
  { unfold listarUsuarios, JsMap.values. now rewrite length_map. }
  rewrite Hll. cbn [Nat.eqb]. rewrite Hlu. cbn [Nat.eqb].
  unfold listarLibros, listarUsuarios in *.
  destruct (JsMap.values (libros b)) as [|l ls] eqn:El; [discriminate|].
  destruct (JsMap.values (usuarios b)) as [|u us] eqn:Eu; [discriminate|].
  destruct (primero_es_1 Libro.id (libros b) _ l ls Bl Hkl El) as (Hl1 & Gl).
  destruct (primero_es_1 Usuario.id (usuarios b) _ u us Bu Hku Eu) as (Hu1 & Gu).
  rewrite Hl1, Hu1.
  (* the loan succeeds: the first book is available *)
  assert (Libro.isDisponible l = true) as D.
  { apply (filter_todos Libro.isDisponible (JsMap.values (libros b))).
    - unfold JsMap.count in Hdis. unfold JsMap.values.
      rewrite Hdis, length_map. symmetry. exact Htot.
    - rewrite El. now left. }
  assert (exito (PrestarLibro ahora1 1 1) b = true) as Hex1.
  { cbn [exito]. unfold prestarLibro, prestarLibro_aux. rewrite Gl, Gu, D. cbn [negb].
    now destruct (Libro.prestar l). }
  pose proof (alc_paso (PrestarLibro ahora1 1 1) b Hal H1) as Hal3.
  pose proof (estadisticas_paso_aux (PrestarLibro ahora1 1 1) b Hal H1 Hex1) as Hst3.
  cbv zeta in Hst3. cbn [ejecutar] in Hal3, Hst3.
  assert (JsMap.size (prestamos (snd (prestarLibro ahora1 1 1 b)))
          = S (JsMap.size (prestamos b)) /\
          usuarios (snd (prestarLibro ahora1 1 1 b)) = usuarios b) as (Hsz3 & Hus3).
  { destruct (prestarLibro_exito _ _ _ _ Hex1) as (l0 & u0 & _ & _ & _ & ->).
    unfold save. cbn [snd prestamos usuarios].
    rewrite size_set, (consecutivos_libre _ _ Hkp). split; [lia|reflexivity]. }
  set (b3 := snd (prestarLibro ahora1 1 1 b)) in *.
  rewrite (estadisticas_count b) in Hst3. rewrite Htot, Hdis, Hact in Hst3.
  cbn [totalLibros disponibles prestamosActivos] in Hst3.
  destruct Hst3 as (Ht3 & Hd3 & Ha3).
  (* exactly one loan is active, and returning it succeeds *)
  destruct (listarPrestamos true b3) as [|p ps] eqn:Ep.
  { unfold estadisticas in Ha3. cbn [prestamosActivos] in Ha3. rewrite Ep in Ha3.
    discriminate. }
  assert (In p (listarPrestamos true b3)) as Hin by (rewrite Ep; now left).
  unfold listarPrestamos in Hin. apply filter_In in Hin as [Hin A].
  pose proof (estado_bien_formada b3 (alcanzable_estado b3 Hal3)) as (_ & _ & Bp3).
  pose proof (valor_get Prestamo.id _ p Bp3 Hin) as Gp.
  destruct (activo_implica_prestado b3 _ p (alcanzable_coherente b3 Hal3) Gp A)
    as (l3 & Gl3 & _).
  assert (exito (DevolverLibro ahora2 (Prestamo.id p)) b3 = true) as Hex2.
  { cbn [exito]. unfold devolverLibro, devolverLibro_aux. rewrite Gp, A, Gl3. cbn [negb].
    now destruct (Prestamo.devolver ahora2 p), (Libro.devolver l3). }
  pose proof (alc_paso (DevolverLibro ahora2 (Prestamo.id p)) b3 Hal3 H2) as Hal4.
  pose proof (estadisticas_paso_aux (DevolverLibro ahora2 (Prestamo.id p)) b3 Hal3 H2 Hex2)
    as Hst4.
  cbv zeta in Hst4. cbn [ejecutar] in Hal4, Hst4.
  assert (JsMap.size (prestamos (snd (devolverLibro ahora2 (Prestamo.id p) b3)))
          = JsMap.size (prestamos b3) /\
          usuarios (snd (devolverLibro ahora2 (Prestamo.id p) b3)) = usuarios b3)
    as (Hsz4 & Hus4).
  { destruct (devolverLibro_exito _ _ _ Hex2) as (p0 & l0 & Ep0 & _ & _ & ->).
    unfold save. cbn [snd prestamos usuarios].
    rewrite size_set, Ep0. split; [lia|reflexivity]. }
  split; [exact Hal4|]. split; [|split].
  - destruct Hst4 as (Ht4 & Hd4 & Ha4).
    destruct (estadisticas (snd (devolverLibro ahora2 (Prestamo.id p) b3))) as [t4 d4 a4].
    cbn in *. f_equal; lia.
  - rewrite Hus4, Hus3. exact Hus.
  - rewrite Hsz4. exact Hsz3.
Qed.

(** The first run, on an empty port. *)
Lemma demo_inicial ahora1 ahora2 :
  truthy ahora1 = true -> truthy ahora2 = true ->
  let b' := demo ahora1 ahora2 None in
  alcanzable b' /\ estadisticas b' = mkEst 3 3 0 /\
  JsMap.size (usuarios b') = 3%nat /\ JsMap.size (prestamos b') = 1%nat.
Proof.
  intros H1 H2 b'. subst b'.
  change (demo ahora1 ahora2 None)
    with (ejecutar (DevolverLibro ahora2 1)
           (ejecutar (PrestarLibro ahora1 1 1)
             (ejecutar (CrearUsuario "María García")
               (ejecutar (CrearUsuario "Carlos López")
                 (ejecutar (CrearUsuario "Ana Pérez")
                   (ejecutar (CrearLibro "El Quijote" "Miguel de Cervantes" 1605)
                     (ejecutar (CrearLibro "Don Quijote de la Mancha"
                                  "Miguel de Cervantes" 1605)
                       (ejecutar (CrearLibro "Cien años de soledad"
                                    "Gabriel García Márquez" 1967)
                          (new None))))))))).
  split.
  - apply alc_paso; [|exact H2]. apply alc_paso; [|exact H1].
    repeat (apply alc_paso; [|reflexivity]). apply alc_inicial.
  - cbn. unfold estadisticas, listarPrestamos, save. cbn.
    unfold Prestamo.isActivo. cbn. rewrite H2. cbn. auto.
Qed.

Lemma entre_demos_paso n b ahora1 ahora2 :
  entre_demos n b -> truthy ahora1 = true -> truthy ahora2 = true ->
  entre_demos (S n) (demo ahora1 ahora2 (storage b)).
Proof.
  intros (Hal & Hsz & [[-> ->]|[Hest Hus]]) H1 H2.
  - destruct (demo_inicial ahora1 ahora2 H1 H2) as (Ha & He & Hu & Hp).
    split; [exact Ha|]. split; [exact Hp|]. right. now split.
  - destruct (demo_sobre_catalogo ahora1 ahora2 b Hal H1 H2 Hest Hus)
      as (Ha & He & Hu & Hp).
    split; [exact Ha|]. split; [now rewrite Hp, Hsz|]. right. now split.
Qed.

Lemma entre_demos_todas relojes n b :
  entre_demos n b -> relojes_validos relojes = true ->
  entre_demos (n + List.length relojes)
    (fold_left (fun b r => demo (fst r) (snd r) (storage b)) relojes b).
Proof.
  revert n b. induction relojes as [|[a1 a2] rs IH]; intros n b Hb Hv.
  - now rewrite Nat.add_0_r.
  - cbn in Hv. apply andb_true_iff in Hv as [Hv Hrs].
    apply andb_true_iff in Hv as [H1 H2].
    cbn [fold_left List.length fst snd]. rewrite Nat.add_succ_r.
    apply (IH (S n)); [|exact Hrs]. now apply entre_demos_paso.
Qed.

(** X23: the demo can be run again and again. Started on an empty port and
    run once or more, each run on what the run before saved, it always ends
    with three books, all of them available, three users, no active loan and
    one returned loan per run; and the state it ends in is one the four
    operations reach from the empty catalog. *)
Theorem demos_estables (relojes : list (string * string)) :
  relojes_validos relojes = true -> relojes <> [] ->
  alcanzable (demos relojes) /\
  estadisticas (demos relojes) = mkEst 3 3 0 /\
  List.length (listarUsuarios (demos relojes)) = 3%nat /\
  List.length (listarPrestamos false (demos relojes)) = List.length relojes /\
  listarPrestamos true (demos relojes) = [].
Proof.
  intros Hv Hne.
  assert (entre_demos 0 (new None)) as H0.
  { split; [apply alc_inicial|]. split; [reflexivity|]. left. now split. }
  pose proof (entre_demos_todas relojes 0 (new None) H0 Hv) as (Hal & Hsz & Hq).
  fold (demos relojes) in Hal, Hsz, Hq. cbn [Nat.add] in Hsz, Hq.
  destruct Hq as [[Hz _]|[Hest Hus]].
  { destruct relojes; [contradiction | discriminate]. }
  split; [exact Hal|]. split; [exact Hest|].
  unfold listarUsuarios, listarPrestamos, JsMap.values. rewrite !length_map.
  split; [exact Hus|]. split; [exact Hsz|].
  apply (f_equal prestamosActivos) in Hest. cbn in Hest.
  now apply length_zero_iff_nil in Hest.
Qed.

Lemma demos_estables_witness :
  let relojes := [("2024-05-01T10:00:00.000Z", "2024-05-01T10:00:01.000Z");
                  ("2024-05-02T10:00:00.000Z", "2024-05-02T10:00:01.000Z")] in
  alcanzable (demos relojes) /\
  estadisticas (demos relojes) = mkEst 3 3 0 /\
  List.length (listarUsuarios (demos relojes)) = 3%nat /\
  List.length (listarPrestamos false (demos relojes)) = List.length relojes /\
  listarPrestamos true (demos relojes) = [].
Proof.
  cbv zeta. apply demos_estables; [reflexivity | discriminate].
Defined.

(** X24: run on the port of any state reached from the empty catalog, with
    loans still open or not, the demo ends in a state the four operations
    reach from the empty catalog, so everything proved of those states holds
    after it. *)
Theorem demo_alcanzable (ahora1 ahora2 : string) (b : t) :
  alcanzable b -> truthy ahora1 = true -> truthy ahora2 = true ->
  alcanzable (demo ahora1 ahora2 (storage b)).
Proof.
  intros Hal H1 H2. unfold demo. rewrite (new_storage b Hal). cbv zeta.
  set (b1 := if Nat.eqb (List.length (listarLibros b)) 0 then _ else b).
  assert (alcanzable b1) as Hal1.
  { subst b1. destruct (Nat.eqb _ 0); [|exact Hal].
    apply (alc_paso (CrearLibro _ _ _)); [|reflexivity].
    apply (alc_paso (CrearLibro _ _ _)); [|reflexivity].
    apply (alc_paso (CrearLibro _ _ _)); [|reflexivity]. exact Hal. }
  clearbody b1.
  set (b2 := if Nat.eqb (List.length (listarUsuarios b1)) 0 then _ else b1).
  assert (alcanzable b2) as Hal2.
  { subst b2. destruct (Nat.eqb _ 0); [|exact Hal1].
    apply (alc_paso (CrearUsuario _)); [|reflexivity].
    apply (alc_paso (CrearUsuario _)); [|reflexivity].
    apply (alc_paso (CrearUsuario _)); [|reflexivity]. exact Hal1. }
  clearbody b2.
  set (b3 := match listarLibros b2 with [] => b2 | _ :: _ => _ end).
  assert (alcanzable b3) as Hal3.
  { subst b3. destruct (listarLibros b2) as [|l ls]; [exact Hal2|].
    destruct (listarUsuarios b2) as [|u us]; [exact Hal2|].
    apply (alc_paso (PrestarLibro ahora1 (Libro.id l) (Usuario.id u))); assumption. }
  clearbody b3.
  destruct (listarPrestamos true b3) as [|p ps]; [exact Hal3|].
  apply (alc_paso (DevolverLibro ahora2 (Prestamo.id p))); assumption.
Qed.

Lemma demo_alcanzable_witness :
  alcanzable (demo "2024-05-02T10:00:00.000Z" "2024-05-02T10:00:01.000Z"
    (storage (ejecutar (PrestarLibro "2024-05-01T10:00:00.000Z" 1 1)
                (ejecutar (CrearUsuario "Ana")
                   (ejecutar (CrearLibro "El Aleph" "Borges" 1949) (new None)))))).
Proof.
  apply demo_alcanzable; [|reflexivity|reflexivity].
  repeat (apply alc_paso; [|reflexivity]). apply alc_inicial.
Defined.

End MainFacts.
